(** * Locations of Lines: the line generator of [locations_of_lines.py]

    A shallow embedding of the class [LineFactory] (constructor,
    [make_lines], [_generate_row_col_lines], [_generate_all_lines]) together
    with the few numpy and Python operations it relies on: [np.arange],
    basic slicing [a[start::step]], [np.random.choice], [np.vstack(..).T],
    [np.ones(shape)*iter] and [np.concatenate].

    Conventions of the model.
    - Python integers are [Z].  The second array of a row, [np.ones(..)*iter],
      holds floats in numpy; every value it can hold is an integer below
      3000, represented exactly, so it is modelled over [Z] too.
    - A two-column array (one row per segment) is a [list (Z * Z)].
    - Exceptions are values: a computation returns [Ok v] or [Raise e].
    - The ambient random generator of numpy is an explicit state: an
      entropy function and a cursor.  [choice a] picks the element of [a]
      whose position is the current entropy word modulo the length of [a]
      and advances the cursor, so that every sequence of draws numpy can
      produce is the behaviour of some entropy function.
    - Memory limits of [np.arange] are not modelled. *)

From Stdlib Require Import String.
From Stdlib Require Import ZArith List Lia Bool.
Import ListNotations.
Open Scope Z_scope.

(** ** Exceptions and outcomes *)

Inductive exn : Type :=
| ValueError (msg : string)
| UnboundLocalError (msg : string).

Definition exn_msg (e : exn) : string :=
  match e with
  | ValueError m => m
  | UnboundLocalError m => m
  end.

Inductive outcome (A : Type) : Type :=
| Ok (a : A)
| Raise (e : exn).

Arguments Ok {A} a.
Arguments Raise {A} e.

(** The exceptions the code can meet.  The messages are those of current
    CPython and numpy; older numpy versions word the empty draw differently,
    and no claim depends on the wording beyond its not being a message of
    the program's own. *)
Definition slice_step_zero : exn :=
  ValueError "slice step cannot be zero".

Definition choice_empty : exn :=
  ValueError "'a' cannot be empty unless no samples are taken".

Definition vstack_mismatch : exn :=
  ValueError "all the input array dimensions except for the concatenation axis must match exactly".

Definition lines1_unbound : exn :=
  UnboundLocalError "local variable 'lines1' referenced before assignment".

(** ** The random source *)

Record RandomState : Type := mkRandomState {
  entropy : nat -> nat;
  cursor : nat
}.

Definition advance (r : RandomState) : RandomState :=
  mkRandomState (entropy r) (S (cursor r)).

(** Computations that draw random numbers and may raise. *)
Definition M (A : Type) : Type := RandomState -> outcome A * RandomState.

Definition ret {A} (a : A) : M A := fun r => (Ok a, r).

Definition raise {A} (e : exn) : M A := fun r => (Raise e, r).

Definition bind {A B} (c : M A) (k : A -> M B) : M B :=
  fun r =>
    match c r with
    | (Ok a, r') => k a r'
    | (Raise e, r') => (Raise e, r')
    end.

Definition lift {A} (o : outcome A) : M A := fun r => (o, r).

Notation "x <- c1 ;; c2" := (bind c1 (fun x => c2))
  (at level 61, c1 at next level, right associativity).
Notation "' pat <- c1 ;; c2" :=
  (bind c1 (fun x => match x with pat => c2 end))
  (at level 61, pat pattern, c1 at next level, right associativity).

(** ** numpy and Python primitives *)

(** [np.arange(n)]: the integers [0 .. n-1], empty when [n <= 0]. *)
Definition arange (n : Z) : list Z := map Z.of_nat (seq 0 (Z.to_nat n)).

(** The positions selected by the slice [start::step] ([step <> 0], no stop)
    in a sequence of length [len], as CPython's slice adjustment computes
    them: a negative start counts from the end, an out-of-range start is
    clipped, and the number of positions is a rounded-up quotient. *)
Definition slice_indices (len : Z) (start : option Z) (step : Z) : list Z :=
  if 0 <? step then
    let lo := match start with
              | None => 0
              | Some s => if s <? 0 then Z.max (s + len) 0 else Z.min s len
              end in
    let count := if lo <? len then (len - lo - 1) / step + 1 else 0 in
    map (fun k => lo + Z.of_nat k * step) (seq 0 (Z.to_nat count))
  else
    let hi := match start with
              | None => len - 1
              | Some s => if s <? 0 then Z.max (s + len) (-1)
                          else Z.min s (len - 1)
              end in
    let count := if -1 <? hi then hi / (- step) + 1 else 0 in
    map (fun k => hi + Z.of_nat k * step) (seq 0 (Z.to_nat count)).

(** [a[start::step]] on a one-dimensional array. *)
Definition getslice (a : list Z) (start : option Z) (step : Z)
  : outcome (list Z) :=
  if step =? 0 then Raise slice_step_zero
  else Ok (map (fun i => nth (Z.to_nat i) a 0)
               (slice_indices (Z.of_nat (length a)) start step)).

(** [np.random.choice(a)] for a one-dimensional array [a]. *)
Definition choice (a : list Z) : M Z :=
  fun r =>
    match a with
    | [] => (Raise choice_empty, r)
    | _ :: _ =>
        (Ok (nth (Nat.modulo (entropy r (cursor r)) (length a)) a 0),
         advance r)
    end.

Definition lines : Type := list (Z * Z).

(** [np.vstack((c1, c2)).T]: one row [c1[i], c2[i]] per position. *)
Definition vstack_T (c1 c2 : list Z) : outcome lines :=
  if Nat.eqb (length c1) (length c2) then Ok (combine c1 c2)
  else Raise vstack_mismatch.

(** [np.ones(lines1.shape) * iter]. *)
Definition ones_times (lines1 : lines) (iter : Z) : lines :=
  map (fun _ => (iter, iter)) lines1.

(** ** The object *)

Record LineFactory : Type := mkLineFactory {
  number_of_rows_cols : Z;
  rows_cols : list Z;
  line_length : Z;
  line_gap : Z;
  row_density : Z;
  column_density : Z;
  horizontal_lines_xs : option lines;
  horizontal_lines_ys : option lines;
  vertical_lines_ys : option lines;
  vertical_lines_xs : option lines
}.

Definition set_line_length (self : LineFactory) (v : Z) : LineFactory :=
  mkLineFactory (number_of_rows_cols self) (rows_cols self) v
    (line_gap self) (row_density self) (column_density self)
    (horizontal_lines_xs self) (horizontal_lines_ys self)
    (vertical_lines_ys self) (vertical_lines_xs self).

Definition set_line_gap (self : LineFactory) (v : Z) : LineFactory :=
  mkLineFactory (number_of_rows_cols self) (rows_cols self)
    (line_length self) v (row_density self) (column_density self)
    (horizontal_lines_xs self) (horizontal_lines_ys self)
    (vertical_lines_ys self) (vertical_lines_xs self).

Definition set_row_density (self : LineFactory) (v : Z) : LineFactory :=
  mkLineFactory (number_of_rows_cols self) (rows_cols self)
    (line_length self) (line_gap self) v (column_density self)
    (horizontal_lines_xs self) (horizontal_lines_ys self)
    (vertical_lines_ys self) (vertical_lines_xs self).

Definition set_column_density (self : LineFactory) (v : Z) : LineFactory :=
  mkLineFactory (number_of_rows_cols self) (rows_cols self)
    (line_length self) (line_gap self) (row_density self) v
    (horizontal_lines_xs self) (horizontal_lines_ys self)
    (vertical_lines_ys self) (vertical_lines_xs self).

Definition set_horizontal_lines (self : LineFactory) (xs ys : lines)
  : LineFactory :=
  mkLineFactory (number_of_rows_cols self) (rows_cols self)
    (line_length self) (line_gap self) (row_density self)
    (column_density self)
    (Some xs) (Some ys)
    (vertical_lines_ys self) (vertical_lines_xs self).

Definition set_vertical_lines (self : LineFactory) (ys xs : lines)
  : LineFactory :=
  mkLineFactory (number_of_rows_cols self) (rows_cols self)
    (line_length self) (line_gap self) (row_density self)
    (column_density self)
    (horizontal_lines_xs self) (horizontal_lines_ys self)
    (Some ys) (Some xs).

(** ** Generating one row or column *)

Definition _generate_row_col_lines (self : LineFactory) (iter : Z)
  : M (lines * lines) :=
  start_jitter <- choice (arange (line_length self + line_gap self)) ;;
  coordinates1 <- lift (getslice (rows_cols self) (Some start_jitter)
                          (line_gap self + line_length self)) ;;
  coordinates2 <- lift (getslice (rows_cols self)
                          (Some (start_jitter + line_length self))
                          (line_gap self + line_length self)) ;;
  let coordinates1 :=
    if Nat.ltb (length coordinates2) (length coordinates1)
    then removelast coordinates1 else coordinates1 in
  lines1 <- lift (vstack_T coordinates1 coordinates2) ;;
  ret (lines1, ones_times lines1 iter).

(** ** Generating every row or column *)

(** The body of the [for] loop; the accumulator is [None] while the local
    variables [lines1], [lines2] are still unbound. *)
Fixpoint all_lines_loop (self : LineFactory) (indices : list Z)
    (acc : option (lines * lines)) : M (option (lines * lines)) :=
  match indices with
  | [] => ret acc
  | row_col :: rest =>
      if row_col =? 0 then
        r <- _generate_row_col_lines self row_col ;;
        all_lines_loop self rest (Some r)
      else
        ' (a, b) <- _generate_row_col_lines self row_col ;;
        match acc with
        | None => raise lines1_unbound
        | Some (lines1, lines2) =>
            all_lines_loop self rest (Some (lines1 ++ a, lines2 ++ b))
        end
  end.

Definition _generate_all_lines (self : LineFactory) (horizontal : bool)
  : M (lines * lines) :=
  let density := if horizontal then row_density self
                 else column_density self in
  indices <- lift (getslice (rows_cols self) None density) ;;
  acc <- all_lines_loop self indices None ;;
  match acc with
  | None => raise lines1_unbound
  | Some r => ret r
  end.

(** ** [make_lines] and the constructor *)

(** Python truthiness of an optional integer argument: [None] and [0] are
    falsy. *)
Definition truthy (a : option Z) : bool :=
  match a with
  | Some v => negb (v =? 0)
  | None => false
  end.

Definition arg_value (a : option Z) : Z :=
  match a with
  | Some v => v
  | None => 0
  end.

(** The four conditional assignments at the head of [make_lines]. *)
Definition update_parameters (self : LineFactory)
    (line_length line_gap row_density column_density : option Z)
  : LineFactory :=
  let self := if truthy line_length
              then set_line_length self (arg_value line_length) else self in
  let self := if truthy line_gap
              then set_line_gap self (arg_value line_gap) else self in
  let self := if truthy row_density
              then set_row_density self (100 - arg_value row_density)
              else self in
  let self := if truthy column_density
              then set_column_density self (100 - arg_value column_density)
              else self in
  self.

(** [make_lines] mutates the object, so it returns the object as it is when
    the call ends, whether it returned or raised. *)
Definition make_lines (self : LineFactory)
    (line_length line_gap row_density column_density : option Z)
    (r : RandomState) : outcome unit * LineFactory * RandomState :=
  let self := update_parameters self line_length line_gap
                row_density column_density in
  match _generate_all_lines self true r with
  | (Raise e, r1) => (Raise e, self, r1)
  | (Ok (xs, ys), r1) =>
      let self := set_horizontal_lines self xs ys in
      match _generate_all_lines self false r1 with
      | (Raise e, r2) => (Raise e, self, r2)
      | (Ok (ys', xs'), r2) => (Ok tt, set_vertical_lines self ys' xs', r2)
      end
  end.

(** The attribute assignments of the constructor, before it calls
    [make_lines]. *)
Definition init_fields (line_length line_gap column_density row_density : Z)
  : LineFactory :=
  let number_of_rows_cols := 1000 in
  mkLineFactory number_of_rows_cols (arange (number_of_rows_cols * 3))
    line_length line_gap (100 - row_density) (100 - column_density)
    None None None None.

Definition __init__ (line_length line_gap column_density row_density : Z)
    (r : RandomState) : outcome unit * LineFactory * RandomState :=
  make_lines (init_fields line_length line_gap column_density row_density)
    None None None None r.

(** ** Reading the result of a call *)

Definition outcome_of {A} (x : outcome A * LineFactory * RandomState)
  : outcome A := fst (fst x).

(** The state in which a call leaves the object. *)
Definition state_after {A} (x : A * LineFactory * RandomState)
  : LineFactory := snd (fst x).

(** The state in which a call leaves the random source. *)
Definition rng_after {A} (x : A * LineFactory * RandomState) : RandomState :=
  snd x.

(** ** Concrete runs *)

(** A source that always answers 0. *)
Definition rng0 : RandomState := mkRandomState (fun _ => 0%nat) 0.

(** A deterministic source whose draws change as it is consumed. *)
Definition rng_stream : RandomState :=
  mkRandomState (fun n => Nat.div n 7) 0.

(** The object the script builds. *)
Definition built : LineFactory := state_after (__init__ 250 50 80 80 rng0).

(** An object built from [rng_stream], regenerated twice in succession
    with the same arguments. *)
Definition stream_built := __init__ 250 50 10 10 rng_stream.

Definition first_call :=
  make_lines (state_after stream_built)
    (Some 250) (Some 50) (Some 10) (Some 10) (rng_after stream_built).

Definition second_call :=
  make_lines (state_after first_call)
    (Some 250) (Some 50) (Some 10) (Some 10) (rng_after first_call).

(** ** Closed forms and predicates of the statements *)

(** The number of positions [start, start + step, ...] below [n]. *)
Definition stride_count (n start step : Z) : nat :=
  if start <? n then Z.to_nat ((n - start - 1) / step + 1) else 0%nat.

(** The positions themselves. *)
Definition stride_from (start step : Z) (count : nat) : list Z :=
  map (fun k => start + Z.of_nat k * step) (seq 0 count).

(** The jitter the next draw gives to an object. *)
Definition jitter (self : LineFactory) (r : RandomState) : Z :=
  Z.of_nat (Nat.modulo (entropy r (cursor r))
              (Z.to_nat (line_length self + line_gap self))).

(** Lengths the specification calls valid: neither negative, not both
    zero. *)
Definition valid_stride (self : LineFactory) : Prop :=
  0 <= line_length self /\ 0 <= line_gap self /\
  0 < line_length self + line_gap self.

(** The segments of a row that starts at jitter [j]: the starts
    [j, j + step, ...] paired with the ends [j + ll, j + ll + step, ...],
    as many as there are ends below [n]. *)
Definition row_segments (n ll step j : Z) : lines :=
  let m := stride_count n (j + ll) step in
  combine (stride_from j step m) (stride_from (j + ll) step m).

(** The source after [k] draws. *)
Fixpoint advance_n (k : nat) (r : RandomState) : RandomState :=
  match k with
  | O => r
  | S k' => advance_n k' (advance r)
  end.

(** What the loop appends for the rows [indices], drawing from [r]. *)
Fixpoint rows_spec (self : LineFactory) (n : Z) (indices : list Z)
    (r : RandomState) : lines * lines :=
  match indices with
  | [] => ([], [])
  | i :: rest =>
      let seg := row_segments n (line_length self)
                   (line_gap self + line_length self) (jitter self r) in
      (seg ++ fst (rows_spec self n rest (advance r)),
       ones_times seg i ++ snd (rows_spec self n rest (advance r)))
  end.

(** The rows or columns a stored density selects. *)
Definition selected (n density : Z) : list Z :=
  stride_from 0 density (stride_count n 0 density).

(** The stored density an orientation reads. *)
Definition density_of (self : LineFactory) (horizontal : bool) : Z :=
  if horizontal then row_density self else column_density self.

(** The per-row segments behind [rows_spec]. *)
Fixpoint row_list (self : LineFactory) (n : Z) (indices : list Z)
    (r : RandomState) : list lines :=
  match indices with
  | [] => []
  | _ :: rest =>
      row_segments n (line_length self)
        (line_gap self + line_length self) (jitter self r)
      :: row_list self n rest (advance r)
  end.

(** The orthogonal array that goes with per-row segments: row [k] is
    labelled with index [k]. *)
Definition label_rows (indices : list Z) (rows : list lines) : lines :=
  concat (map (fun ir => ones_times (snd ir) (fst ir)) (combine indices rows)).

(** Stored densities that come from user densities in [[0, 90]]. *)
Definition valid_parameters (self : LineFactory) : Prop :=
  valid_stride self /\
  10 <= row_density self <= 100 /\ 10 <= column_density self <= 100.

(** Two objects that agree on everything generation reads. *)
Definition same_parameters (s s' : LineFactory) : Prop :=
  rows_cols s = rows_cols s' /\
  line_length s = line_length s' /\ line_gap s = line_gap s' /\
  row_density s = row_density s' /\ column_density s = column_density s'.

(** A row of the scripted artwork: starts every 300 units from a jitter
    [j], each segment 250 long, ten of them when the tenth still ends
    inside the grid ([j < 50]) and nine otherwise. *)
Definition scripted_row (seg : lines) : Prop :=
  exists j, 0 <= j < 300 /\
    seg = map (fun k => (j + 300 * Z.of_nat k, j + 300 * Z.of_nat k + 250))
            (seq 0 (if (j <? 50)%Z then 10 else 9)).

(** The same, as the specification words it. *)
Definition spaced_row (seg : lines) : Prop :=
  (9 <= length seg <= 10)%nat /\
  Forall (fun p => 0 <= fst p /\ snd p < 3000 /\ snd p - fst p = 250) seg /\
  forall k, (S k < length seg)%nat ->
    fst (nth (S k) seg (0, 0)) - fst (nth k seg (0, 0)) = 300.

(** Every coordinate of an array lies in the grid. *)
Definition in_grid (l : lines) : Prop :=
  Forall (fun p => 0 <= fst p < 3000 /\ 0 <= snd p < 3000) l.

(** The same for the accumulator of the loop. *)
Definition acc_in_grid (acc : option (lines * lines)) : Prop :=
  match acc with
  | None => True
  | Some (lines1, lines2) => in_grid lines1 /\ in_grid lines2
  end.

(** ** The figure *)

(** The settings [plot_lines] gives to the Bokeh figure it returns. *)
Record Figure : Type := mkFigure {
  plot_width : Z;
  plot_height : Z;
  x_range : Z * Z;
  y_range : Z * Z;
  toolbar_logo : option string;
  toolbar_location : option string;
  axis_visible : bool;
  grid_visible : bool
}.

Definition plot_lines (self : LineFactory) : Figure :=
  mkFigure 500 500
    (number_of_rows_cols self, number_of_rows_cols self * 2)
    (number_of_rows_cols self, number_of_rows_cols self * 2)
    None None false false.

(** ** The script around the class *)

(** A Bokeh slider as the script declares it. *)
Record Slider : Type := mkSlider {
  slider_title : string;
  slider_value : Z;
  slider_start : Z;
  slider_end : Z;
  slider_step : Z
}.

(** The four data sliders of the script (the globals [line_length],
    [line_gap], [row_density] and [column_density], renamed because the
    attributes of the class already have these names). *)
Definition line_length_slider : Slider :=
  mkSlider "Line Length" 250 0 1000 10.

Definition line_gap_slider : Slider := mkSlider "Line Gap" 50 0 1000 10.

Definition row_density_slider : Slider := mkSlider "Row Density" 80 0 90 10.

Definition column_density_slider : Slider :=
  mkSlider "Column Density" 80 0 90 10.

(** A value the user can give to a slider: on its grid of steps, between
    its start and its end. *)
Definition slider_position (s : Slider) (v : Z) : Prop :=
  exists k, 0 <= k /\ v = slider_start s + k * slider_step s /\
            v <= slider_end s.

(** The values of the four sliders when a callback runs. *)
Record Widgets : Type := mkWidgets {
  line_length_value : Z;
  line_gap_value : Z;
  row_density_value : Z;
  column_density_value : Z
}.

Definition widgets_positions (w : Widgets) : Prop :=
  slider_position line_length_slider (line_length_value w) /\
  slider_position line_gap_slider (line_gap_value w) /\
  slider_position row_density_slider (row_density_value w) /\
  slider_position column_density_slider (column_density_value w).

(** The globals of the script: the object [lines] (here [factory]) and the
    data of the two column data sources, each a dictionary with two
    keys. *)
Record Script : Type := mkScript {
  factory : LineFactory;
  horizontal_source : list (string * lines);
  vertical_source : list (string * lines)
}.

(** What a statement of the script does: it completes, an exception of the
    class propagates, or an attribute that was never assigned is read. *)
Inductive script_result (A : Type) : Type :=
| Done (a : A)
| Failed (e : exn)
| AttributeError (name : string).

Arguments Done {A} a.
Arguments Failed {A} e.
Arguments AttributeError {A} name.

(** [dict(horizontal_lines_xs=lines.horizontal_lines_xs,
          horizontal_lines_ys=lines.horizontal_lines_ys)]. *)
Definition horizontal_data (f : LineFactory)
  : script_result (list (string * lines)) :=
  match horizontal_lines_xs f with
  | None => AttributeError "horizontal_lines_xs"
  | Some xs =>
      match horizontal_lines_ys f with
      | None => AttributeError "horizontal_lines_ys"
      | Some ys =>
          Done [("horizontal_lines_xs"%string, xs);
                ("horizontal_lines_ys"%string, ys)]
      end
  end.

(** [dict(vertical_lines_xs=lines.vertical_lines_xs,
          vertical_lines_ys=lines.vertical_lines_ys)]. *)
Definition vertical_data (f : LineFactory)
  : script_result (list (string * lines)) :=
  match vertical_lines_xs f with
  | None => AttributeError "vertical_lines_xs"
  | Some xs =>
      match vertical_lines_ys f with
      | None => AttributeError "vertical_lines_ys"
      | Some ys =>
          Done [("vertical_lines_xs"%string, xs);
                ("vertical_lines_ys"%string, ys)]
      end
  end.

(** The set-up of the script: build the object, then the two sources.
    Nothing is bound when the constructor raises. *)
Definition script_start (r : RandomState)
  : script_result Script * RandomState :=
  match __init__ 250 50 80 80 r with
  | (Raise e, _, r') => (Failed e, r')
  | (Ok _, f, r') =>
      match horizontal_data f with
      | AttributeError n => (AttributeError n, r')
      | Failed e => (Failed e, r')
      | Done h =>
          match vertical_data f with
          | AttributeError n => (AttributeError n, r')
          | Failed e => (Failed e, r')
          | Done v => (Done (mkScript f h v), r')
          end
      end
  end.

(** The callback [update_data]: read the four sliders, regenerate, then
    replace the data of the horizontal source and of the vertical source.
    The object is mutated even when the call raises; a source is replaced
    only if the statements before it completed. *)
Definition update_data (w : Widgets) (app : Script) (r : RandomState)
  : script_result unit * Script * RandomState :=
  let ll := line_length_value w in
  let lg := line_gap_value w in
  let rd := row_density_value w in
  let cd := column_density_value w in
  match make_lines (factory app) (Some ll) (Some lg) (Some rd) (Some cd) r with
  | (Raise e, f, r') =>
      (Failed e,
       mkScript f (horizontal_source app) (vertical_source app), r')
  | (Ok _, f, r') =>
      match horizontal_data f with
      | AttributeError n =>
          (AttributeError n,
           mkScript f (horizontal_source app) (vertical_source app), r')
      | Failed e =>
          (Failed e,
           mkScript f (horizontal_source app) (vertical_source app), r')
      | Done h =>
          match vertical_data f with
          | AttributeError n =>
              (AttributeError n, mkScript f h (vertical_source app), r')
          | Failed e => (Failed e, mkScript f h (vertical_source app), r')
          | Done v => (Done tt, mkScript f h v, r')
          end
      end
  end.

(** The slider events of a session, handled one after the other; the
    session is followed up to the first callback that does not complete. *)
Fixpoint run_events (events : list Widgets) (app : Script) (r : RandomState)
  : script_result unit * Script * RandomState :=
  match events with
  | [] => (Done tt, app, r)
  | w :: rest =>
      match update_data w app r with
      | (Done _, app', r') => run_events rest app' r'
      | other => other
      end
  end.

(** The parameters the sliders can leave in the object: a slider at 0 is
    ignored, so lengths stay between 10 and 1000 and stored densities
    between 10 and 90. *)
Definition ui_parameters (f : LineFactory) : Prop :=
  rows_cols f = arange 3000 /\
  10 <= line_length f <= 1000 /\ 10 <= line_gap f <= 1000 /\
  10 <= row_density f <= 90 /\ 10 <= column_density f <= 90.

(** The sources show the line sets the object holds. *)
Definition sources_in_sync (app : Script) : Prop :=
  horizontal_data (factory app) = Done (horizontal_source app) /\
  vertical_data (factory app) = Done (vertical_source app).

(** Two objects that agree on what one row reads. *)
Definition same_row_parameters (s s' : LineFactory) : Prop :=
  rows_cols s = rows_cols s' /\
  line_length s = line_length s' /\ line_gap s = line_gap s'.

(** An array whose orthogonal coordinate never decreases. *)
Fixpoint nondecreasing_from (lo : Z) (l : lines) : Prop :=
  match l with
  | [] => True
  | p :: rest => lo <= fst p /\ nondecreasing_from (fst p) rest
  end.

(** * Properties *)

(** ** The monad *)

Lemma bind_ok {A B} (c : M A) (k : A -> M B) r a r' :
  c r = (Ok a, r') -> bind c k r = k a r'.
Proof. intros H. unfold bind. rewrite H. reflexivity. Qed.

Lemma bind_raise {A B} (c : M A) (k : A -> M B) r e r' :
  c r = (Raise e, r') -> bind c k r = (Raise e, r').
Proof. intros H. unfold bind. rewrite H. reflexivity. Qed.

(** ** [arange] *)

Lemma length_arange n : length (arange n) = Z.to_nat n.
Proof. unfold arange. rewrite length_map, length_seq. reflexivity. Qed.

Lemma nth_arange n k d :
  (k < Z.to_nat n)%nat -> nth k (arange n) d = Z.of_nat k.
Proof.
  intros Hk. unfold arange.
  rewrite nth_indep with (d' := Z.of_nat 0)
    by (rewrite length_map, length_seq; exact Hk).
  rewrite map_nth, seq_nth by exact Hk. reflexivity.
Qed.

Lemma nth_arange_Z n i d :
  0 <= i < n -> nth (Z.to_nat i) (arange n) d = i.
Proof.
  intros Hi. rewrite nth_arange by lia. lia.
Qed.

Lemma In_arange n x : In x (arange n) <-> 0 <= x < n.
Proof.
  unfold arange. rewrite in_map_iff. split.
  - intros [k [<- Hk]]. apply in_seq in Hk. lia.
  - intros Hx. exists (Z.to_nat x). split; [lia |].
    apply in_seq. lia.
Qed.

(** ** Slicing *)

Lemma div_bound_mul k a b :
  0 < b -> 0 <= k <= a / b -> k * b <= a.
Proof.
  intros Hb Hk.
  pose proof (Z.mul_div_le a b Hb). nia.
Qed.

Lemma slice_indices_range len start step i :
  0 <= len -> step <> 0 ->
  In i (slice_indices len start step) -> 0 <= i < len.
Proof.
  intros Hlen Hstep. unfold slice_indices.
  destruct (Z.ltb_spec 0 step) as [Hpos | Hneg].
  - set (lo := match start with
               | None => 0
               | Some s => if s <? 0 then Z.max (s + len) 0 else Z.min s len
               end).
    assert (Hlo : 0 <= lo <= len).
    { subst lo. destruct start as [s |]; [| lia].
      destruct (Z.ltb_spec s 0); lia. }
    clearbody lo. rewrite in_map_iff. intros [k [<- Hk]].
    apply in_seq in Hk.
    destruct (Z.ltb_spec lo len) as [Hlt | Hge]; [| simpl in Hk; lia].
    assert (Hq : 0 <= (len - lo - 1) / step)
      by (apply Z.div_pos; lia).
    assert (Z.of_nat k * step <= len - lo - 1)
      by (apply div_bound_mul; lia).
    nia.
  - set (hi := match start with
               | None => len - 1
               | Some s => if s <? 0 then Z.max (s + len) (-1)
                           else Z.min s (len - 1)
               end).
    assert (Hhi : -1 <= hi <= len - 1).
    { subst hi. destruct start as [s |]; [| lia].
      destruct (Z.ltb_spec s 0); lia. }
    clearbody hi. rewrite in_map_iff. intros [k [<- Hk]].
    apply in_seq in Hk.
    destruct (Z.ltb_spec (-1) hi) as [Hlt | Hge]; [| simpl in Hk; lia].
    assert (Hq : 0 <= hi / (- step))
      by (apply Z.div_pos; lia).
    assert (Z.of_nat k * (- step) <= hi)
      by (apply div_bound_mul; lia).
    nia.
Qed.

(** A slice only holds elements of the array it is taken from. *)
Lemma getslice_In a start step l x :
  getslice a start step = Ok l -> In x l -> In x a.
Proof.
  unfold getslice. destruct (Z.eqb_spec step 0) as [| Hstep]; [discriminate |].
  intros [= <-]. rewrite in_map_iff. intros [i [<- Hi]].
  apply slice_indices_range in Hi; [| lia | exact Hstep].
  apply nth_In. lia.
Qed.

Lemma stride_count_bound n start step k :
  0 < step -> (k < stride_count n start step)%nat ->
  start + Z.of_nat k * step < n.
Proof.
  intros Hstep. unfold stride_count.
  destruct (Z.ltb_spec start n) as [Hlt | Hge]; [| lia].
  intros Hk.
  assert (Hq : 0 <= (n - start - 1) / step) by (apply Z.div_pos; lia).
  assert (Z.of_nat k * step <= n - start - 1)
    by (apply div_bound_mul; lia).
  lia.
Qed.

(** A slice of [arange n] from a non-negative start with a positive step,
    in closed form. *)
Lemma getslice_arange n start step :
  0 <= n -> 0 <= start -> 0 < step ->
  getslice (arange n) (Some start) step
  = Ok (stride_from start step (stride_count n start step)).
Proof.
  intros Hn Hs Hstep. unfold getslice.
  destruct (Z.eqb_spec step 0); [lia |]. f_equal.
  unfold slice_indices. rewrite length_arange, Z2Nat.id by lia.
  destruct (Z.ltb_spec 0 step); [| lia].
  destruct (Z.ltb_spec start 0); [lia |].
  unfold stride_from, stride_count.
  destruct (Z.ltb_spec start n) as [Hlt | Hge].
  - rewrite Z.min_l by lia.
    destruct (Z.ltb_spec start n); [| lia].
    rewrite map_map. apply map_ext_in. intros k Hk. apply in_seq in Hk.
    apply nth_arange_Z. split; [nia |].
    apply stride_count_bound; [lia |]. unfold stride_count.
    destruct (Z.ltb_spec start n); lia.
  - rewrite Z.min_r by lia.
    destruct (Z.ltb_spec n n); [lia |]. reflexivity.
Qed.

Lemma getslice_arange_all n step :
  0 <= n -> 0 < step ->
  getslice (arange n) None step
  = Ok (stride_from 0 step (stride_count n 0 step)).
Proof.
  intros Hn Hstep. rewrite <- getslice_arange by lia.
  unfold getslice, slice_indices.
  destruct (Z.ltb_spec 0 step); [| lia].
  destruct (Z.ltb_spec 0 0); [lia |].
  rewrite Z.min_l by lia. reflexivity.
Qed.

Lemma length_stride_from start step count :
  length (stride_from start step count) = count.
Proof. unfold stride_from. rewrite length_map, length_seq. reflexivity. Qed.

Lemma removelast_stride_from start step count :
  removelast (stride_from start step (S count))
  = stride_from start step count.
Proof.
  unfold stride_from. rewrite seq_S, map_app. simpl.
  apply removelast_last.
Qed.

(** The shifted sequence of ends is as long as the sequence of starts, or
    one shorter. *)
Lemma stride_count_shift n j ll step :
  0 <= j -> 0 <= ll <= step -> 0 < step ->
  (stride_count n (j + ll) step <= stride_count n j step
   <= S (stride_count n (j + ll) step))%nat.
Proof.
  intros Hj Hll Hstep. unfold stride_count.
  destruct (Z.ltb_spec (j + ll) n) as [Hlt | Hge].
  - destruct (Z.ltb_spec j n); [| lia].
    assert (H1 : (n - (j + ll) - 1) / step <= (n - j - 1) / step)
      by (apply Z.div_le_mono; lia).
    assert (H2 : (n - j - 1) / step <= (n - (j + ll) - 1) / step + 1).
    { rewrite <- (Z.div_add _ 1 step) by lia.
      apply Z.div_le_mono; lia. }
    assert (H3 : 0 <= (n - (j + ll) - 1) / step)
      by (apply Z.div_pos; lia).
    lia.
  - destruct (Z.ltb_spec j n); [| lia].
    rewrite Z.div_small by lia. simpl. lia.
Qed.

(** ** The random draw *)

Lemma choice_arange n r :
  0 < n ->
  choice (arange n) r
  = (Ok (Z.of_nat (Nat.modulo (entropy r (cursor r)) (Z.to_nat n))),
     advance r).
Proof.
  intros Hn. unfold choice.
  destruct (arange n) as [| x l] eqn:E.
  - apply (f_equal (@length Z)) in E. rewrite length_arange in E.
    simpl in E. lia.
  - rewrite <- E, length_arange. rewrite nth_arange; [reflexivity |].
    apply Nat.mod_upper_bound. lia.
Qed.

Lemma choice_arange_empty n r :
  n <= 0 -> choice (arange n) r = (Raise choice_empty, r).
Proof.
  intros Hn. unfold choice, arange.
  replace (Z.to_nat n) with 0%nat by lia. reflexivity.
Qed.

Lemma jitter_range self r :
  0 < line_length self + line_gap self ->
  0 <= jitter self r < line_length self + line_gap self.
Proof.
  intros H. unfold jitter.
  pose proof (Nat.mod_upper_bound (entropy r (cursor r))
                (Z.to_nat (line_length self + line_gap self))).
  lia.
Qed.

(** ** One row in closed form *)

Lemma row_closed_form self iter r n :
  rows_cols self = arange n -> 0 <= n -> valid_stride self ->
  _generate_row_col_lines self iter r
  = (Ok (row_segments n (line_length self)
           (line_gap self + line_length self) (jitter self r),
         ones_times (row_segments n (line_length self)
                       (line_gap self + line_length self) (jitter self r))
           iter),
     advance r).
Proof.
  intros Hgrid Hn (Hll & Hlg & Hsum).
  pose proof (jitter_range self r Hsum) as Hj.
  unfold _generate_row_col_lines.
  rewrite (bind_ok _ _ _ _ _ (choice_arange _ r Hsum)).
  fold (jitter self r). set (j := jitter self r) in *.
  rewrite Hgrid.
  rewrite !getslice_arange by lia.
  unfold bind, lift, ret.
  pose proof (stride_count_shift n j (line_length self)
                (line_gap self + line_length self)) as Hc.
  rewrite !length_stride_from.
  set (n1 := stride_count n j (line_gap self + line_length self)) in *.
  set (n2 := stride_count n (j + line_length self)
               (line_gap self + line_length self)) in *.
  assert (Hstart :
    (if Nat.ltb n2 n1
     then removelast (stride_from j (line_gap self + line_length self) n1)
     else stride_from j (line_gap self + line_length self) n1)
    = stride_from j (line_gap self + line_length self) n2).
  { destruct (Nat.ltb_spec n2 n1).
    - replace n1 with (S n2) by lia. apply removelast_stride_from.
    - replace n1 with n2 by lia. reflexivity. }
  rewrite Hstart. unfold vstack_T.
  rewrite !length_stride_from, Nat.eqb_refl. reflexivity.
Qed.

(** ** Every row in closed form *)

Lemma all_lines_loop_closed_form self n :
  rows_cols self = arange n -> 0 <= n -> valid_stride self ->
  forall indices lines1 lines2 r,
    Forall (fun i => i <> 0) indices ->
    all_lines_loop self indices (Some (lines1, lines2)) r
    = (Ok (Some (lines1 ++ fst (rows_spec self n indices r),
                 lines2 ++ snd (rows_spec self n indices r))),
       advance_n (length indices) r).
Proof.
  intros Hgrid Hn Hvalid.
  induction indices as [| i rest IH]; intros lines1 lines2 r Hnz.
  - simpl. rewrite !app_nil_r. reflexivity.
  - inversion Hnz as [| ? ? Hi Hrest]; subst.
    simpl all_lines_loop. destruct (Z.eqb_spec i 0) as [| _]; [contradiction |].
    rewrite (bind_ok _ _ _ _ _ (row_closed_form self i r n Hgrid Hn Hvalid)).
    rewrite IH by exact Hrest. simpl. rewrite !app_assoc. reflexivity.
Qed.

Lemma stride_from_cons start step count :
  stride_from start step (S count)
  = start :: stride_from (start + step) step count.
Proof.
  unfold stride_from. simpl. f_equal; [lia |].
  rewrite <- seq_shift, map_map. apply map_ext. intros k. lia.
Qed.

Lemma stride_from_nonzero start step count :
  0 < start -> 0 < step ->
  Forall (fun i => i <> 0) (stride_from start step count).
Proof.
  intros Hs Hstep. unfold stride_from. apply Forall_map, Forall_forall.
  intros k _. nia.
Qed.

Lemma stride_count_all_succ n step :
  0 < n -> 0 < step ->
  stride_count n 0 step = S (Z.to_nat ((n - 1) / step)).
Proof.
  intros Hn Hstep. unfold stride_count.
  destruct (Z.ltb_spec 0 n); [| lia].
  assert (0 <= (n - 1) / step) by (apply Z.div_pos; lia).
  replace (n - 0 - 1) with (n - 1) by lia. lia.
Qed.

Lemma all_lines_closed_form self n horizontal r :
  rows_cols self = arange n -> 0 < n -> valid_stride self ->
  0 < density_of self horizontal ->
  _generate_all_lines self horizontal r
  = (Ok (rows_spec self n (selected n (density_of self horizontal)) r),
     advance_n (length (selected n (density_of self horizontal))) r).
Proof.
  intros Hgrid Hn Hvalid Hd. unfold _generate_all_lines.
  fold (density_of self horizontal).
  set (d := density_of self horizontal) in *.
  rewrite Hgrid, getslice_arange_all by lia.
  fold (selected n d). unfold selected.
  rewrite stride_count_all_succ by lia. rewrite stride_from_cons.
  unfold bind at 1. unfold lift.
  set (rest := stride_from (0 + d) d (Z.to_nat ((n - 1) / d))).
  assert (Hrest : Forall (fun i => i <> 0) rest)
    by (apply stride_from_nonzero; lia).
  simpl all_lines_loop. unfold bind at 1.
  rewrite (bind_ok _ _ _ _ _ (row_closed_form self 0 r n Hgrid
                                 (Z.lt_le_incl _ _ Hn) Hvalid)).
  unfold bind.
  rewrite (all_lines_loop_closed_form self n Hgrid (Z.lt_le_incl _ _ Hn)
             Hvalid rest _ _ _ Hrest).
  reflexivity.
Qed.

Lemma combine_map_same {A B C} (f : A -> B) (g : A -> C) (l : list A) :
  combine (map f l) (map g l) = map (fun x => (f x, g x)) l.
Proof.
  induction l as [| x l IH]; simpl; [reflexivity |]. rewrite IH. reflexivity.
Qed.

Lemma row_segments_map n ll step j :
  row_segments n ll step j
  = map (fun k => (j + Z.of_nat k * step, j + ll + Z.of_nat k * step))
      (seq 0 (stride_count n (j + ll) step)).
Proof. unfold row_segments, stride_from. apply combine_map_same. Qed.

Lemma row_segments_fst n ll step j :
  map fst (row_segments n ll step j)
  = stride_from j step (stride_count n (j + ll) step).
Proof.
  rewrite row_segments_map, map_map. reflexivity.
Qed.

Lemma row_segments_snd n ll step j :
  map snd (row_segments n ll step j)
  = stride_from (j + ll) step (stride_count n (j + ll) step).
Proof.
  rewrite row_segments_map, map_map. reflexivity.
Qed.

Lemma row_segments_extent n ll step j :
  Forall (fun p => snd p - fst p = ll) (row_segments n ll step j).
Proof.
  rewrite row_segments_map. apply Forall_map, Forall_forall.
  intros k _. simpl. lia.
Qed.

Lemma firstn_stride_from start step m count :
  (m <= count)%nat ->
  firstn m (stride_from start step count) = stride_from start step m.
Proof.
  intros Hm. unfold stride_from. rewrite firstn_map. f_equal.
  replace count with (m + (count - m))%nat by lia.
  rewrite seq_app, firstn_app, length_seq, Nat.sub_diag. simpl.
  rewrite app_nil_r. apply firstn_all2. rewrite length_seq. lia.
Qed.

Lemma length_ones_times l iter : length (ones_times l iter) = length l.
Proof. unfold ones_times. apply length_map. Qed.

Lemma length_row_list self n indices r :
  length (row_list self n indices r) = length indices.
Proof.
  revert r. induction indices as [| i rest IH]; intros r; simpl;
    [reflexivity | rewrite IH; reflexivity].
Qed.

Lemma rows_spec_rows self n indices r :
  rows_spec self n indices r
  = (concat (row_list self n indices r),
     label_rows indices (row_list self n indices r)).
Proof.
  revert r. induction indices as [| i rest IH]; intros r.
  - reflexivity.
  - simpl rows_spec. rewrite IH. reflexivity.
Qed.

Lemma row_list_jitter self n indices r :
  0 < line_length self + line_gap self ->
  Forall (fun seg => exists j,
            0 <= j < line_length self + line_gap self /\
            seg = row_segments n (line_length self)
                    (line_gap self + line_length self) j)
    (row_list self n indices r).
Proof.
  intros Hsum. revert r.
  induction indices as [| i rest IH]; intros r; simpl; constructor.
  - exists (jitter self r). split; [apply jitter_range; exact Hsum |].
    reflexivity.
  - apply IH.
Qed.

Lemma Forall_concat {A} (P : A -> Prop) (ls : list (list A)) :
  Forall (Forall P) ls -> Forall P (concat ls).
Proof.
  induction 1 as [| l ls Hl _ IH]; simpl; [constructor |].
  apply Forall_app. split; assumption.
Qed.

Lemma length_label_rows indices rows :
  length indices = length rows ->
  length (label_rows indices rows) = length (concat rows).
Proof.
  revert rows. induction indices as [| i rest IH]; intros [| seg rows] Hlen;
    try discriminate; [reflexivity |].
  unfold label_rows in *. simpl. rewrite !length_app, length_ones_times.
  rewrite IH by (simpl in Hlen; lia). reflexivity.
Qed.

Lemma valid_density self horizontal :
  valid_parameters self -> 10 <= density_of self horizontal <= 100.
Proof.
  intros (_ & Hr & Hc). destruct horizontal; simpl; assumption.
Qed.

(** ** C1 and C2: the shape of a row *)

(** C1. For a valid parameter set and any draw of the jitter, generating a
    row or column succeeds, its two arrays have the same length, and every
    segment spans exactly [line_length] along the axis: the ends are all the
    elements of the shifted slice, and the starts are the first as many
    elements of the starts slice, which is as long as the ends or one longer,
    so that an unmatched last start is dropped and no shorter segment is
    emitted.  The same holds of the whole line set of either orientation. *)
Theorem C1_segments_have_full_length self r :
  rows_cols self = arange 3000 -> valid_parameters self ->
  (forall iter, exists lines1 lines2 starts ends,
      _generate_row_col_lines self iter r = (Ok (lines1, lines2), advance r) /\
      length lines1 = length lines2 /\
      Forall (fun p => snd p - fst p = line_length self) lines1 /\
      getslice (rows_cols self) (Some (jitter self r))
        (line_gap self + line_length self) = Ok starts /\
      getslice (rows_cols self) (Some (jitter self r + line_length self))
        (line_gap self + line_length self) = Ok ends /\
      (length ends <= length starts <= S (length ends))%nat /\
      map fst lines1 = firstn (length ends) starts /\
      map snd lines1 = ends) /\
  (forall horizontal, exists lines1 lines2 r',
      _generate_all_lines self horizontal r = (Ok (lines1, lines2), r') /\
      length lines1 = length lines2 /\
      Forall (fun p => snd p - fst p = line_length self) lines1).
Proof.
  intros Hgrid Hvalid. pose proof Hvalid as (Hstride & _).
  pose proof Hstride as (Hll & Hlg & Hsum).
  pose proof (jitter_range self r Hsum) as Hj.
  split.
  - intros iter.
    pose proof (stride_count_shift 3000 (jitter self r) (line_length self)
                  (line_gap self + line_length self)) as Hc.
    eexists _, _, _, _. split; [| split; [| split; [| split; [| split]]]].
    + apply (row_closed_form self iter r 3000 Hgrid); [lia | exact Hstride].
    + rewrite length_ones_times. reflexivity.
    + apply row_segments_extent.
    + rewrite Hgrid. apply getslice_arange; lia.
    + rewrite Hgrid. apply getslice_arange; lia.
    + rewrite !length_stride_from.
      split; [lia |]. split.
      * rewrite firstn_stride_from by lia. apply row_segments_fst.
      * apply row_segments_snd.
  - intros horizontal.
    pose proof (valid_density self horizontal Hvalid) as Hd.
    eexists _, _, _. split; [| split].
    + rewrite (all_lines_closed_form self 3000 horizontal r Hgrid)
        by (try exact Hstride; lia).
      rewrite rows_spec_rows. reflexivity.
    + rewrite length_label_rows by (rewrite length_row_list; reflexivity).
      reflexivity.
    + apply Forall_concat.
      eapply Forall_impl; [| apply row_list_jitter; exact Hsum].
      intros seg (j & _ & ->). apply row_segments_extent.
Qed.

Lemma C1_segments_have_full_length_witness :
  rows_cols (init_fields 250 50 80 80) = arange 3000 /\
  valid_parameters (init_fields 250 50 80 80) /\
  exists lines1 lines2,
    _generate_row_col_lines (init_fields 250 50 80 80) 20 rng0
    = (Ok (lines1, lines2), advance rng0) /\
    length lines1 = length lines2 /\
    Forall (fun p => snd p - fst p = 250) lines1.
Proof.
  assert (Hgrid : rows_cols (init_fields 250 50 80 80) = arange 3000)
    by reflexivity.
  assert (Hvalid : valid_parameters (init_fields 250 50 80 80))
    by (unfold valid_parameters, valid_stride; simpl; lia).
  split; [exact Hgrid | split; [exact Hvalid |]].
  destruct (C1_segments_have_full_length _ rng0 Hgrid Hvalid) as [Hrow _].
  destruct (Hrow 20) as (l1 & l2 & starts & ends & H1 & H2 & H3 & _).
  exists l1, l2. split; [exact H1 | split; [exact H2 | exact H3]].
Defined.

Lemma selected_in_grid n density :
  0 < density ->
  Forall (fun i => 0 <= i < n /\ exists k, 0 <= k /\ i = k * density)
    (selected n density).
Proof.
  intros Hd. unfold selected, stride_from. apply Forall_map, Forall_forall.
  intros k Hk. apply in_seq in Hk. split.
  - split; [nia |]. apply stride_count_bound; lia.
  - exists (Z.of_nat k). split; lia.
Qed.

Lemma label_rows_labels indices rows :
  Forall (fun p => fst p = snd p /\ In (fst p) indices)
    (label_rows indices rows).
Proof.
  unfold label_rows. apply Forall_concat, Forall_map, Forall_forall.
  intros [i seg] Hin. apply in_combine_l in Hin.
  unfold ones_times. apply Forall_map, Forall_forall.
  intros p _. simpl. split; [reflexivity | exact Hin].
Qed.

(** Row [k] of [row_list] is the row generated with the [k]-th draw. *)
Lemma nth_row_list self n indices :
  forall k r,
    (k < length indices)%nat ->
    nth k (row_list self n indices r) []
    = row_segments n (line_length self)
        (line_gap self + line_length self) (jitter self (advance_n k r)).
Proof.
  induction indices as [| i rest IH]; intros k r Hk; [simpl in Hk; lia |].
  destruct k as [| k]; [reflexivity |].
  cbn [row_list nth advance_n]. apply IH. simpl in Hk. lia.
Qed.

(** C2. For a valid parameter set, every orthogonal pair of a row is the
    index the row was generated for, and the indices selected for an
    orientation lie in [[0, 3000)] and are multiples of the stored density.
    The whole line set is tied to the rows that produce it: with
    [indices] the selected indices, row [k] is what
    [_generate_row_col_lines] returns for the [k]-th index on the [k]-th
    draw; the along-axis array is the concatenation of the rows' segments
    in that order, and the orthogonal array is the concatenation of the
    rows' orthogonal arrays, so the segments of row [k] are labelled with
    the [k]-th selected index and no other. *)
Theorem C2_orthogonal_is_row_index self r horizontal :
  rows_cols self = arange 3000 -> valid_parameters self ->
  (forall iter, exists lines1 lines2,
      _generate_row_col_lines self iter r = (Ok (lines1, lines2), advance r) /\
      length lines2 = length lines1 /\
      Forall (fun p => p = (iter, iter)) lines2) /\
  exists indices rows r',
    getslice (rows_cols self) None (density_of self horizontal) = Ok indices /\
    Forall (fun i => 0 <= i < 3000 /\
                     exists k, 0 <= k /\ i = k * density_of self horizontal)
      indices /\
    length rows = length indices /\
    (forall k, (k < length indices)%nat ->
       _generate_row_col_lines self (nth k indices 0) (advance_n k r)
       = (Ok (nth k rows [], ones_times (nth k rows []) (nth k indices 0)),
          advance (advance_n k r))) /\
    _generate_all_lines self horizontal r
    = (Ok (concat rows,
           concat (map (fun ir => ones_times (snd ir) (fst ir))
                     (combine indices rows))), r') /\
    _generate_all_lines self horizontal r
    = (Ok (concat rows, label_rows indices rows), r') /\
    Forall (fun p => fst p = snd p /\ In (fst p) indices)
      (label_rows indices rows).
Proof.
  intros Hgrid Hvalid. pose proof Hvalid as (Hstride & _).
  pose proof (valid_density self horizontal Hvalid) as Hd.
  split.
  - intros iter. eexists _, _. split; [| split].
    + apply (row_closed_form self iter r 3000 Hgrid); [lia | exact Hstride].
    + apply length_ones_times.
    + unfold ones_times. apply Forall_map, Forall_forall. reflexivity.
  - exists (selected 3000 (density_of self horizontal)).
    exists (row_list self 3000 (selected 3000 (density_of self horizontal)) r).
    eexists.
    assert (Hall : _generate_all_lines self horizontal r
      = (Ok (concat (row_list self 3000
                       (selected 3000 (density_of self horizontal)) r),
             label_rows (selected 3000 (density_of self horizontal))
               (row_list self 3000
                  (selected 3000 (density_of self horizontal)) r)),
         advance_n (length (selected 3000 (density_of self horizontal))) r)).
    { rewrite (all_lines_closed_form self 3000 horizontal r Hgrid)
        by (try exact Hstride; lia).
      rewrite rows_spec_rows. reflexivity. }
    split; [| split; [| split; [| split; [| split; [| split]]]]].
    + rewrite Hgrid. apply getslice_arange_all; lia.
    + apply selected_in_grid. lia.
    + apply length_row_list.
    + intros k Hk. rewrite nth_row_list by exact Hk.
      apply (row_closed_form self _ (advance_n k r) 3000 Hgrid);
        [lia | exact Hstride].
    + exact Hall.
    + exact Hall.
    + apply label_rows_labels.
Qed.

Lemma C2_orthogonal_is_row_index_witness :
  rows_cols (init_fields 250 50 80 80) = arange 3000 /\
  valid_parameters (init_fields 250 50 80 80) /\
  exists lines1 lines2,
    _generate_row_col_lines (init_fields 250 50 80 80) 40 rng0
    = (Ok (lines1, lines2), advance rng0) /\
    Forall (fun p => p = (40, 40)) lines2.
Proof.
  assert (Hgrid : rows_cols (init_fields 250 50 80 80) = arange 3000)
    by reflexivity.
  assert (Hvalid : valid_parameters (init_fields 250 50 80 80))
    by (unfold valid_parameters, valid_stride; simpl; lia).
  split; [exact Hgrid | split; [exact Hvalid |]].
  destruct (C2_orthogonal_is_row_index _ rng0 true Hgrid Hvalid)
    as [Hrow _].
  destruct (Hrow 40) as (l1 & l2 & H1 & _ & H2).
  exists l1, l2. split; [exact H1 | exact H2].
Defined.

(** ** What generation reads, and what [make_lines] writes *)

Lemma same_parameters_refl s : same_parameters s s.
Proof. repeat split. Qed.

Lemma row_ext s s' iter :
  same_parameters s s' ->
  _generate_row_col_lines s iter = _generate_row_col_lines s' iter.
Proof.
  intros (Hg & Hll & Hlg & _ & _). unfold _generate_row_col_lines.
  rewrite Hg, Hll, Hlg. reflexivity.
Qed.

Lemma all_lines_loop_ext s s' :
  same_parameters s s' ->
  forall indices acc r,
    all_lines_loop s indices acc r = all_lines_loop s' indices acc r.
Proof.
  intros Hsame. induction indices as [| i rest IH]; intros acc r.
  - reflexivity.
  - simpl. rewrite (row_ext s s' i Hsame).
    destruct (i =? 0); unfold bind;
      destruct (_generate_row_col_lines s' i r) as [[[a b] | e] r1];
      try reflexivity; [apply IH |].
    destruct acc as [[l1 l2] |]; [apply IH | reflexivity].
Qed.

Lemma all_lines_ext s s' horizontal r :
  same_parameters s s' ->
  _generate_all_lines s horizontal r = _generate_all_lines s' horizontal r.
Proof.
  intros Hsame. pose proof Hsame as (Hg & _ & _ & Hrd & Hcd).
  unfold _generate_all_lines. rewrite Hg, Hrd, Hcd. unfold bind, lift.
  destruct (getslice (rows_cols s') None
              (if horizontal then row_density s' else column_density s'))
    as [indices | e]; [| reflexivity].
  rewrite (all_lines_loop_ext s s' Hsame). reflexivity.
Qed.

Lemma update_parameters_fields self a b c d :
  let self' := update_parameters self a b c d in
  rows_cols self' = rows_cols self /\
  number_of_rows_cols self' = number_of_rows_cols self /\
  line_length self'
  = (if truthy a then arg_value a else line_length self) /\
  line_gap self' = (if truthy b then arg_value b else line_gap self) /\
  row_density self'
  = (if truthy c then 100 - arg_value c else row_density self) /\
  column_density self'
  = (if truthy d then 100 - arg_value d else column_density self) /\
  horizontal_lines_xs self' = horizontal_lines_xs self /\
  horizontal_lines_ys self' = horizontal_lines_ys self /\
  vertical_lines_ys self' = vertical_lines_ys self /\
  vertical_lines_xs self' = vertical_lines_xs self.
Proof.
  unfold update_parameters.
  destruct (truthy a), (truthy b), (truthy c), (truthy d); simpl;
    repeat split; reflexivity.
Qed.

(** Assigning parameters the values they already hold changes nothing. *)
Lemma update_parameters_fixed self s1 a b c d :
  same_parameters (update_parameters self a b c d) s1 ->
  update_parameters s1 a b c d = s1.
Proof.
  intros (_ & Hll & Hlg & Hrd & Hcd).
  destruct (update_parameters_fields self a b c d)
    as (_ & _ & Fll & Flg & Frd & Fcd & _).
  rewrite Fll in Hll. rewrite Flg in Hlg.
  rewrite Frd in Hrd. rewrite Fcd in Hcd.
  unfold update_parameters. destruct s1; simpl in *.
  destruct (truthy a), (truthy b), (truthy c), (truthy d);
    unfold set_line_length, set_line_gap, set_row_density,
      set_column_density; simpl; subst; reflexivity.
Qed.

Lemma make_lines_parameters self a b c d r :
  same_parameters (update_parameters self a b c d)
    (state_after (make_lines self a b c d r)).
Proof.
  unfold make_lines, state_after.
  destruct (_generate_all_lines _ true r) as [[[xs ys] | e] r1]; simpl;
    [| apply same_parameters_refl].
  destruct (_generate_all_lines _ false r1) as [[[ys' xs'] | e] r2]; simpl;
    repeat split.
Qed.

(** ** Failing generations *)

Lemma row_degenerate self iter r :
  line_length self + line_gap self <= 0 ->
  _generate_row_col_lines self iter r = (Raise choice_empty, r).
Proof.
  intros H. unfold _generate_row_col_lines.
  apply bind_raise. apply choice_arange_empty. exact H.
Qed.

Lemma all_lines_loop_degenerate self i rest acc r :
  line_length self + line_gap self <= 0 ->
  all_lines_loop self (i :: rest) acc r = (Raise choice_empty, r).
Proof.
  intros H. simpl.
  destruct (i =? 0); apply bind_raise, row_degenerate; exact H.
Qed.

(** A slice of everything, with a non-zero step, of a non-empty array has a
    first element. *)
Lemma getslice_all_nonempty a step :
  a <> [] -> step <> 0 ->
  exists i rest, getslice a None step = Ok (i :: rest).
Proof.
  intros Ha Hstep. unfold getslice.
  destruct (Z.eqb_spec step 0); [contradiction |].
  assert (Hlen : 0 < Z.of_nat (length a))
    by (destruct a; [contradiction | simpl; lia]).
  unfold slice_indices.
  destruct (Z.ltb_spec 0 step).
  - destruct (Z.ltb_spec 0 (Z.of_nat (length a))); [| lia].
    assert (0 <= (Z.of_nat (length a) - 0 - 1) / step)
      by (apply Z.div_pos; lia).
    destruct (Z.to_nat ((Z.of_nat (length a) - 0 - 1) / step + 1))
      as [| m] eqn:E; [lia |].
    simpl. eexists _, _. reflexivity.
  - destruct (Z.ltb_spec (-1) (Z.of_nat (length a) - 1)); [| lia].
    assert (0 <= (Z.of_nat (length a) - 1) / (- step))
      by (apply Z.div_pos; lia).
    destruct (Z.to_nat ((Z.of_nat (length a) - 1) / (- step) + 1))
      as [| m] eqn:E; [lia |].
    simpl. eexists _, _. reflexivity.
Qed.

Lemma arange_nonempty n : 0 < n -> arange n <> [].
Proof.
  intros Hn E. apply (f_equal (@length Z)) in E.
  rewrite length_arange in E. simpl in E. lia.
Qed.

Lemma all_lines_zero_density self horizontal r :
  density_of self horizontal = 0 ->
  _generate_all_lines self horizontal r = (Raise slice_step_zero, r).
Proof.
  intros Hd. unfold _generate_all_lines. fold (density_of self horizontal).
  rewrite Hd. reflexivity.
Qed.

(** With a degenerate stride ([line_length + line_gap <= 0]) nothing is
    generated: the first draw of a jitter fails, unless the slice of the
    rows failed before it. *)
Lemma all_lines_degenerate self horizontal r n :
  rows_cols self = arange n -> 0 < n ->
  line_length self + line_gap self <= 0 ->
  _generate_all_lines self horizontal r
  = (Raise (if density_of self horizontal =? 0
            then slice_step_zero else choice_empty), r).
Proof.
  intros Hgrid Hn Hdeg.
  destruct (Z.eqb_spec (density_of self horizontal) 0) as [Hd | Hd].
  - apply all_lines_zero_density. exact Hd.
  - unfold _generate_all_lines. fold (density_of self horizontal).
    destruct (getslice_all_nonempty (rows_cols self)
                (density_of self horizontal)) as (i & rest & Hs);
      [rewrite Hgrid; apply arange_nonempty; exact Hn | exact Hd |].
    rewrite Hs. unfold bind at 1. unfold lift.
    apply bind_raise. apply all_lines_loop_degenerate. exact Hdeg.
Qed.

(** With a negative stored density the rows are visited from 2999 down:
    the first one is not row 0, so [lines1] is still unbound when the loop
    wants to extend it. *)
Lemma all_lines_negative_density self horizontal r :
  rows_cols self = arange 3000 -> valid_stride self ->
  density_of self horizontal < 0 ->
  _generate_all_lines self horizontal r = (Raise lines1_unbound, advance r).
Proof.
  intros Hgrid Hvalid Hd. unfold _generate_all_lines.
  fold (density_of self horizontal).
  set (d := density_of self horizontal) in *.
  assert (Hs : exists rest, getslice (rows_cols self) None d
                            = Ok (2999 :: rest)).
  { rewrite Hgrid. unfold getslice.
    destruct (Z.eqb_spec d 0); [lia |].
    rewrite length_arange. unfold slice_indices.
    destruct (Z.ltb_spec 0 d); [lia |].
    change (Z.of_nat (Z.to_nat 3000) - 1) with 2999.
    destruct (Z.ltb_spec (-1) 2999); [| lia].
    assert (0 <= 2999 / (- d)) by (apply Z.div_pos; lia).
    destruct (Z.to_nat (2999 / (- d) + 1)) as [| m] eqn:E; [lia |].
    cbn [seq map]. replace (2999 + Z.of_nat 0 * d) with 2999 by lia.
    rewrite nth_arange_Z by lia. eexists. reflexivity. }
  destruct Hs as (rest & Hs). rewrite Hs.
  unfold bind at 1. unfold lift. apply bind_raise.
  cbn [all_lines_loop]. change (2999 =? 0) with false. cbv iota.
  rewrite (bind_ok _ _ _ _ _ (row_closed_form self 2999 r 3000 Hgrid
                                 ltac:(lia) Hvalid)).
  reflexivity.
Qed.

(** ** Successful regenerations *)

Lemma set_horizontal_same_parameters s xs ys :
  same_parameters (set_horizontal_lines s xs ys) s.
Proof. repeat split. Qed.

(** With a positive stride and positive stored densities [make_lines]
    returns, and the object holds the two generated line sets. *)
Lemma make_lines_valid self a b c d r :
  let self' := update_parameters self a b c d in
  let h := rows_spec self' 3000 (selected 3000 (row_density self')) r in
  let r1 := advance_n (length (selected 3000 (row_density self'))) r in
  let v := rows_spec self' 3000 (selected 3000 (column_density self')) r1 in
  let r2 := advance_n (length (selected 3000 (column_density self'))) r1 in
  rows_cols self' = arange 3000 -> valid_stride self' ->
  0 < row_density self' -> 0 < column_density self' ->
  make_lines self a b c d r
  = (Ok tt,
     set_vertical_lines (set_horizontal_lines self' (fst h) (snd h))
       (fst v) (snd v),
     r2).
Proof.
  intros self' h r1 v r2 Hgrid Hvalid Hrd Hcd. unfold make_lines.
  fold self'.
  rewrite (all_lines_closed_form self' 3000 true r Hgrid)
    by (try exact Hvalid; simpl; lia).
  simpl density_of. fold h r1. destruct h as [xs ys]. simpl fst. simpl snd.
  rewrite (all_lines_ext _ self' false r1
             (set_horizontal_same_parameters self' xs ys)).
  rewrite (all_lines_closed_form self' 3000 false r1 Hgrid)
    by (try exact Hvalid; simpl; lia).
  simpl density_of. fold v r2. destruct v as [ys' xs']. reflexivity.
Qed.

Lemma update_parameters_none self :
  update_parameters self None None None None = self.
Proof. reflexivity. Qed.

Lemma init_fields_grid ll lg cd rd :
  rows_cols (init_fields ll lg cd rd) = arange 3000.
Proof. reflexivity. Qed.

(** ** C3: the degenerate stride *)

(** The claim as the specification words it fails: with both lengths zero
    the constructor raises numpy's [ValueError] for a draw from an empty
    population, whose message is not the one the specification names. *)
Lemma C3_counterexample :
  outcome_of (__init__ 0 0 80 80 rng0) = Raise choice_empty /\
  ~ (exists e, outcome_of (__init__ 0 0 80 80 rng0) = Raise e /\
               exn_msg e = "GapOrLength must be positive"%string).
Proof.
  assert (H : outcome_of (__init__ 0 0 80 80 rng0) = Raise choice_empty)
    by (vm_compute; reflexivity).
  split; [exact H |].
  intros (e & He & Hmsg). rewrite H in He. injection He as <-.
  discriminate Hmsg.
Qed.

(** C3, as the code has it.  When the stored [line_length] and [line_gap]
    are both zero, construction and regeneration raise: the error is numpy's
    [ValueError] for a draw from an empty population (there is no dedicated
    configuration error), it is raised before any line set is replaced, and
    no random number is consumed.  A zero [line_length] with a positive
    [line_gap] is accepted: construction returns, and every segment has zero
    length. *)
Theorem C3_degenerate_stride_raises :
  (forall cd rd r,
      rd <> 100 ->
      __init__ 0 0 cd rd r = (Raise choice_empty, init_fields 0 0 cd rd, r)) /\
  (forall self a b c d r,
      rows_cols self = arange 3000 ->
      line_length (update_parameters self a b c d) = 0 ->
      line_gap (update_parameters self a b c d) = 0 ->
      row_density (update_parameters self a b c d) <> 0 ->
      make_lines self a b c d r
      = (Raise choice_empty, update_parameters self a b c d, r)) /\
  (forall lg cd rd r,
      0 < lg -> 0 <= cd <= 90 -> 0 <= rd <= 90 ->
      exists s' r' hx vy,
        __init__ 0 lg cd rd r = (Ok tt, s', r') /\
        line_length s' = 0 /\ line_gap s' = lg /\
        horizontal_lines_xs s' = Some hx /\
        vertical_lines_ys s' = Some vy /\
        Forall (fun p => fst p = snd p) hx /\
        Forall (fun p => fst p = snd p) vy).
Proof.
  assert (Hregen : forall self a b c d r,
      rows_cols self = arange 3000 ->
      line_length (update_parameters self a b c d) = 0 ->
      line_gap (update_parameters self a b c d) = 0 ->
      row_density (update_parameters self a b c d) <> 0 ->
      make_lines self a b c d r
      = (Raise choice_empty, update_parameters self a b c d, r)).
  { intros self a b c d r Hgrid Hll Hlg Hrd. unfold make_lines.
    destruct (update_parameters_fields self a b c d) as (Hg & _).
    rewrite (all_lines_degenerate _ true r 3000);
      [| rewrite Hg; exact Hgrid | lia | lia].
    simpl density_of.
    destruct (Z.eqb_spec (row_density (update_parameters self a b c d)) 0);
      [contradiction | reflexivity]. }
  split; [| split; [exact Hregen |]].
  - intros cd rd r Hrd. unfold __init__.
    rewrite Hregen; [reflexivity | reflexivity | reflexivity | reflexivity |].
    change (100 - rd <> 0). lia.
  - intros lg cd rd r Hlg Hcd Hrd. unfold __init__.
    rewrite make_lines_valid;
      [| reflexivity | unfold valid_stride; simpl; lia
       | change (0 < 100 - rd); lia | change (0 < 100 - cd); lia].
    rewrite update_parameters_none.
    rewrite !rows_spec_rows. cbn [fst snd].
    eexists _, _, _, _.
    split; [reflexivity |]. split; [reflexivity |]. split; [reflexivity |].
    split; [reflexivity |]. split; [reflexivity |].
    assert (Hzero : forall indices r0,
      Forall (fun p : Z * Z => fst p = snd p)
        (concat (row_list (init_fields 0 lg cd rd) 3000 indices r0))).
    { intros indices r0. apply Forall_concat.
      eapply Forall_impl;
        [| apply row_list_jitter; simpl; lia].
      intros seg (j & _ & ->).
      eapply Forall_impl; [| apply row_segments_extent].
      intros p Hp. simpl in Hp. lia. }
    split; apply Hzero.
Qed.

Lemma C3_degenerate_stride_raises_witness :
  __init__ 0 0 80 80 rng0 = (Raise choice_empty, init_fields 0 0 80 80, rng0) /\
  make_lines (init_fields 0 0 80 80) None (Some 0) None None rng0
  = (Raise choice_empty, init_fields 0 0 80 80, rng0) /\
  outcome_of (__init__ 0 100 80 80 rng0) = Ok tt.
Proof.
  destruct C3_degenerate_stride_raises as (Hinit & Hregen & Hzero).
  split; [| split].
  - apply Hinit. lia.
  - apply (Hregen (init_fields 0 0 80 80) None (Some 0) None None rng0).
    + reflexivity.
    + reflexivity.
    + reflexivity.
    + simpl. lia.
  - destruct (Hzero 100 80 80 rng0) as (s' & r' & hx & vy & H & _);
      [lia | lia | lia |].
    rewrite H. reflexivity.
Defined.

(** ** C4: a failed regeneration *)

(** The claim as the specification words it fails: the regeneration raises
    the degenerate-stride error after [line_length] was overwritten. *)
Lemma C4_counterexample :
  outcome_of (__init__ 250 50 80 80 rng0) = Ok tt /\
  outcome_of (make_lines built (Some (-50)) None None None rng0)
  = Raise choice_empty /\
  line_length built = 250 /\
  line_length
    (state_after (make_lines built (Some (-50)) None None None rng0)) = -50 /\
  state_after (make_lines built (Some (-50)) None None None rng0) <> built.
Proof.
  split; [vm_compute; reflexivity |].
  split; [vm_compute; reflexivity |].
  split; [vm_compute; reflexivity |].
  assert (H4 : line_length
                 (state_after
                    (make_lines built (Some (-50)) None None None rng0))
               = -50)
    by (vm_compute; reflexivity).
  split; [exact H4 |].
  intros E. rewrite E in H4. vm_compute in H4. discriminate H4.
Qed.

(** C4, as the code has it.  When the stride left by the assignments at the
    head of [make_lines] is degenerate ([line_length + line_gap <= 0]), the
    call raises and consumes no random number; both line sets are the ones
    the object held before the call, but the stored parameters are already
    overwritten by every truthy argument: nothing is validated before the
    assignments.  The whole object is unchanged when no argument is
    truthy. *)
Theorem C4_failed_regeneration_state self a b c d r :
  rows_cols self = arange 3000 ->
  line_length (update_parameters self a b c d)
  + line_gap (update_parameters self a b c d) <= 0 ->
  let s' := state_after (make_lines self a b c d r) in
  make_lines self a b c d r
  = (Raise (if row_density (update_parameters self a b c d) =? 0
            then slice_step_zero else choice_empty),
     update_parameters self a b c d, r) /\
  horizontal_lines_xs s' = horizontal_lines_xs self /\
  horizontal_lines_ys s' = horizontal_lines_ys self /\
  vertical_lines_ys s' = vertical_lines_ys self /\
  vertical_lines_xs s' = vertical_lines_xs self /\
  line_length s' = (if truthy a then arg_value a else line_length self) /\
  line_gap s' = (if truthy b then arg_value b else line_gap self) /\
  row_density s'
  = (if truthy c then 100 - arg_value c else row_density self) /\
  column_density s'
  = (if truthy d then 100 - arg_value d else column_density self) /\
  (truthy a = false -> truthy b = false ->
   truthy c = false -> truthy d = false -> s' = self).
Proof.
  intros Hgrid Hdeg s'.
  destruct (update_parameters_fields self a b c d)
    as (Hg & _ & Fll & Flg & Frd & Fcd & Fhx & Fhy & Fvy & Fvx).
  assert (Hrun : make_lines self a b c d r
    = (Raise (if row_density (update_parameters self a b c d) =? 0
              then slice_step_zero else choice_empty),
       update_parameters self a b c d, r)).
  { unfold make_lines.
    rewrite (all_lines_degenerate _ true r 3000);
      [reflexivity | rewrite Hg; exact Hgrid | lia | exact Hdeg]. }
  assert (Hs : s' = update_parameters self a b c d)
    by (unfold s'; rewrite Hrun; reflexivity).
  split; [exact Hrun |]. rewrite Hs.
  repeat (split; [assumption |]).
  intros Ha Hb Hc Hd. unfold update_parameters.
  rewrite Ha, Hb, Hc, Hd. reflexivity.
Qed.

Lemma C4_failed_regeneration_state_witness :
  rows_cols built = arange 3000 /\
  make_lines built (Some (-50)) None None None rng0
  = (Raise choice_empty,
     update_parameters built (Some (-50)) None None None, rng0) /\
  horizontal_lines_xs
    (state_after (make_lines built (Some (-50)) None None None rng0))
  = horizontal_lines_xs built.
Proof.
  assert (Hgrid : rows_cols built = arange 3000) by (vm_compute; reflexivity).
  assert (Hdeg :
    line_length (update_parameters built (Some (-50)) None None None)
    + line_gap (update_parameters built (Some (-50)) None None None) <= 0)
    by (vm_compute; discriminate).
  destruct (C4_failed_regeneration_state built (Some (-50)) None None None
              rng0 Hgrid Hdeg) as (Hrun & Hhx & _).
  split; [exact Hgrid |]. split; [| exact Hhx].
  rewrite Hrun. vm_compute. reflexivity.
Defined.

(** ** C5: densities are not range-checked *)

Lemma make_lines_horizontal_raises self a b c d r e r1 :
  _generate_all_lines (update_parameters self a b c d) true r
  = (Raise e, r1) ->
  make_lines self a b c d r = (Raise e, update_parameters self a b c d, r1).
Proof. intros H. unfold make_lines. rewrite H. reflexivity. Qed.

Lemma make_lines_vertical_raises self a b c d r xs ys r1 e r2 :
  _generate_all_lines (update_parameters self a b c d) true r
  = (Ok (xs, ys), r1) ->
  _generate_all_lines (update_parameters self a b c d) false r1
  = (Raise e, r2) ->
  make_lines self a b c d r
  = (Raise e,
     set_horizontal_lines (update_parameters self a b c d) xs ys, r2).
Proof.
  intros H1 H2. unfold make_lines. rewrite H1.
  rewrite (all_lines_ext _ _ false r1
             (set_horizontal_same_parameters _ xs ys)).
  rewrite H2. reflexivity.
Qed.

(** The claim as the specification words it fails: a row density of 95 is
    accepted, and stored as the stride 5. *)
Lemma C5_counterexample :
  exists s r,
    __init__ 250 50 80 95 rng0 = (Ok tt, s, r) /\ row_density s = 5.
Proof.
  eexists _, _. split; [vm_compute; reflexivity | reflexivity].
Qed.

(** C5, as the code has it.  No density is range-checked or clamped, and
    there is no range error: a density is stored as [100 - value] whatever
    the value.  With a valid stride, densities below 100, negative ones
    included, are accepted by the constructor and by [make_lines]; a density
    of 100 or more makes the constructor fail, with the slice error of a
    zero step or with the unbound local of a negative one. *)
Theorem C5_density_not_checked :
  (forall ll lg cd rd r,
      0 <= ll -> 0 <= lg -> 0 < ll + lg -> rd < 100 -> cd < 100 ->
      exists s' r',
        __init__ ll lg cd rd r = (Ok tt, s', r') /\
        row_density s' = 100 - rd /\ column_density s' = 100 - cd) /\
  (forall self a b c d r,
      rows_cols self = arange 3000 ->
      valid_stride (update_parameters self a b c d) ->
      0 < row_density (update_parameters self a b c d) ->
      0 < column_density (update_parameters self a b c d) ->
      exists s' r',
        make_lines self a b c d r = (Ok tt, s', r') /\
        row_density s'
        = (if truthy c then 100 - arg_value c else row_density self) /\
        column_density s'
        = (if truthy d then 100 - arg_value d else column_density self)) /\
  (forall ll lg cd rd r,
      0 <= ll -> 0 <= lg -> 0 < ll + lg -> 100 <= rd \/ 100 <= cd ->
      exists e s' r',
        __init__ ll lg cd rd r = (Raise e, s', r') /\
        (e = slice_step_zero \/ e = lines1_unbound) /\
        row_density s' = 100 - rd /\ column_density s' = 100 - cd).
Proof.
  split; [| split].
  - intros ll lg cd rd r Hll Hlg Hsum Hrd Hcd. unfold __init__.
    rewrite make_lines_valid;
      [| reflexivity | unfold valid_stride; simpl; lia
       | change (0 < 100 - rd); lia | change (0 < 100 - cd); lia].
    eexists _, _. split; [reflexivity |]. split; reflexivity.
  - intros self a b c d r Hgrid Hvalid Hrd Hcd.
    destruct (update_parameters_fields self a b c d)
      as (Hg & _ & _ & _ & Frd & Fcd & _).
    rewrite make_lines_valid;
      [| rewrite Hg; exact Hgrid | exact Hvalid | exact Hrd | exact Hcd].
    eexists _, _. split; [reflexivity |].
    split; [exact Frd | exact Fcd].
  - intros ll lg cd rd r Hll Hlg Hsum Hd. unfold __init__.
    set (self := init_fields ll lg cd rd).
    assert (Hvalid : valid_stride self)
      by (unfold valid_stride; simpl; lia).
    assert (Hgrid : rows_cols self = arange 3000) by reflexivity.
    assert (Frd : row_density self = 100 - rd) by reflexivity.
    assert (Fcd : column_density self = 100 - cd) by reflexivity.
    destruct (Z.lt_trichotomy rd 100) as [Hlt | [Heq | Hgt]].
    + assert (Hcd : 100 <= cd) by lia.
      pose proof (all_lines_closed_form self 3000 true r Hgrid
                    ltac:(lia) Hvalid) as Hh.
      destruct (rows_spec self 3000 (selected 3000 (density_of self true)) r)
        as [xs ys].
      destruct (Z.eq_dec cd 100) as [Hc | Hc].
      * eexists _, _, _. split; [| split; [left; reflexivity |]].
        -- eapply (make_lines_vertical_raises self None None None None r
                     xs ys).
           ++ apply Hh. change (0 < row_density self). lia.
           ++ apply all_lines_zero_density.
              change (column_density self = 0). lia.
        -- split; reflexivity.
      * eexists _, _, _. split; [| split; [right; reflexivity |]].
        -- eapply (make_lines_vertical_raises self None None None None r
                     xs ys).
           ++ apply Hh. change (0 < row_density self). lia.
           ++ apply all_lines_negative_density;
                [exact Hgrid | exact Hvalid |].
              change (column_density self < 0). lia.
        -- split; reflexivity.
    + eexists _, _, _. split; [| split; [left; reflexivity |]].
      * apply make_lines_horizontal_raises.
        apply all_lines_zero_density. change (row_density self = 0). lia.
      * split; reflexivity.
    + eexists _, _, _. split; [| split; [right; reflexivity |]].
      * apply make_lines_horizontal_raises.
        apply all_lines_negative_density;
          [exact Hgrid | exact Hvalid |].
        change (row_density self < 0). lia.
      * split; reflexivity.
Qed.

Lemma C5_density_not_checked_witness :
  (exists s' r',
      __init__ 250 50 (-10) 95 rng0 = (Ok tt, s', r') /\
      row_density s' = 5 /\ column_density s' = 110) /\
  (exists e s' r',
      __init__ 250 50 80 100 rng0 = (Raise e, s', r') /\
      (e = slice_step_zero \/ e = lines1_unbound)).
Proof.
  destruct C5_density_not_checked as (Hok & _ & Hfail). split.
  - destruct (Hok 250 50 (-10) 95 rng0) as (s' & r' & H & Hr & Hc);
      [lia | lia | lia | lia | lia |].
    exists s', r'. split; [exact H |]. split; [exact Hr | exact Hc].
  - destruct (Hfail 250 50 80 100 rng0) as (e & s' & r' & H & He & _);
      [lia | lia | lia | lia |].
    exists e, s', r'. split; [exact H | exact He].
Defined.

(** ** C6: a zero argument is an omitted argument *)

(** C6. In [make_lines] an argument equal to 0 behaves as an omitted one, in
    each of the four positions and whatever the other arguments: the whole
    result of the call is the same.  When the call ends, returned or raised,
    each stored parameter is the supplied value if that value is truthy
    (the densities stored as [100 - value]) and its previous value
    otherwise; so a [line_gap] of 0 leaves the stored gap as it was. *)
Theorem C6_zero_is_omitted self a b c d r :
  make_lines self (Some 0) b c d r = make_lines self None b c d r /\
  make_lines self a (Some 0) c d r = make_lines self a None c d r /\
  make_lines self a b (Some 0) d r = make_lines self a b None d r /\
  make_lines self a b c (Some 0) r = make_lines self a b c None r /\
  (let s' := state_after (make_lines self a b c d r) in
   line_length s' = (if truthy a then arg_value a else line_length self) /\
   line_gap s' = (if truthy b then arg_value b else line_gap self) /\
   row_density s'
   = (if truthy c then 100 - arg_value c else row_density self) /\
   column_density s'
   = (if truthy d then 100 - arg_value d else column_density self)) /\
  line_gap (state_after (make_lines self a (Some 0) c d r)) = line_gap self /\
  (forall v, v <> 0 ->
     line_gap (state_after (make_lines self a (Some v) c d r)) = v /\
     row_density (state_after (make_lines self a b (Some v) d r)) = 100 - v).
Proof.
  assert (Hfields : forall a b c d,
    let s' := state_after (make_lines self a b c d r) in
    line_length s' = (if truthy a then arg_value a else line_length self) /\
    line_gap s' = (if truthy b then arg_value b else line_gap self) /\
    row_density s'
    = (if truthy c then 100 - arg_value c else row_density self) /\
    column_density s'
    = (if truthy d then 100 - arg_value d else column_density self)).
  { intros a0 b0 c0 d0 s'.
    destruct (make_lines_parameters self a0 b0 c0 d0 r)
      as (_ & Hll & Hlg & Hrd & Hcd).
    destruct (update_parameters_fields self a0 b0 c0 d0)
      as (_ & _ & Fll & Flg & Frd & Fcd & _).
    unfold s'. rewrite <- Hll, <- Hlg, <- Hrd, <- Hcd.
    repeat split; assumption. }
  repeat (split; [reflexivity |]).
  split; [apply Hfields |].
  split.
  - destruct (Hfields a (Some 0) c d) as (_ & H & _). exact H.
  - intros v Hv.
    assert (Ht : truthy (Some v) = true)
      by (simpl; destruct (Z.eqb_spec v 0); [contradiction | reflexivity]).
    split.
    + destruct (Hfields a (Some v) c d) as (_ & H & _).
      rewrite Ht in H. exact H.
    + destruct (Hfields a b (Some v) d) as (_ & _ & H & _).
      rewrite Ht in H. exact H.
Qed.

Lemma C6_zero_is_omitted_witness :
  line_gap
    (state_after
       (make_lines (init_fields 250 50 80 80) None (Some 0) None None rng0))
  = 50 /\
  line_gap
    (state_after
       (make_lines (init_fields 250 50 80 80) None (Some 70) None None rng0))
  = 70.
Proof.
  destruct (C6_zero_is_omitted (init_fields 250 50 80 80)
              None None None None rng0) as (_ & _ & _ & _ & _ & Hz & Hv).
  split; [exact Hz |].
  destruct (Hv 70) as (Hg & _); [lia | exact Hg].
Defined.

(** ** C7: more density, no fewer rows *)

Lemma length_selected n density :
  length (selected n density) = stride_count n 0 density.
Proof. unfold selected. apply length_stride_from. Qed.




(** ** C8: regenerating twice *)

(** The claim as the specification words it fails: with a fixed
    deterministic source that is not reset between the calls, two
    regenerations in succession with the same arguments give different
    horizontal lines. *)
Lemma C8_counterexample :
  outcome_of stream_built = Ok tt /\
  outcome_of first_call = Ok tt /\
  outcome_of second_call = Ok tt /\
  horizontal_lines_xs (state_after second_call)
  <> horizontal_lines_xs (state_after first_call).
Proof.
  split; [vm_compute; reflexivity |].
  split; [vm_compute; reflexivity |].
  split; [vm_compute; reflexivity |].
  intros E. vm_compute in E. discriminate E.
Qed.

Lemma set_horizontal_fixed s xs ys :
  horizontal_lines_xs s = Some xs -> horizontal_lines_ys s = Some ys ->
  set_horizontal_lines s xs ys = s.
Proof.
  destruct s. simpl. intros -> ->. reflexivity.
Qed.

Lemma set_vertical_fixed s ys xs :
  vertical_lines_ys s = Some ys -> vertical_lines_xs s = Some xs ->
  set_vertical_lines s ys xs = s.
Proof.
  destruct s. simpl. intros -> ->. reflexivity.
Qed.

(** C8, as the code has it.  The result of [make_lines] is a function of the
    stored parameters, the arguments and the state of the random source at
    the call.  Calling it again with the same arguments on the object the
    first call left, with the source put back in the state it had before the
    first call, gives the same outcome, the same object, hence the same
    horizontal and vertical line sets, and the same final source state. *)
Theorem C8_regenerate_from_same_source self a b c d r :
  make_lines (state_after (make_lines self a b c d r)) a b c d r
  = make_lines self a b c d r.
Proof.
  pose proof (make_lines_parameters self a b c d r) as Hsame.
  pose proof (update_parameters_fixed self _ a b c d Hsame) as Hfix.
  unfold make_lines at 1. rewrite Hfix.
  revert Hsame. unfold make_lines, state_after.
  set (self' := update_parameters self a b c d).
  destruct (_generate_all_lines self' true r) as [[[xs ys] | e] r1] eqn:Eh;
    cbn [fst snd].
  - rewrite (all_lines_ext _ self' false r1
               (set_horizontal_same_parameters self' xs ys)).
    destruct (_generate_all_lines self' false r1) as [[[ys' xs'] | e] r2]
      eqn:Ev; cbn [fst snd]; intros Hsame.
    + rewrite (all_lines_ext _ self' true r); [| repeat split].
      rewrite Eh.
      rewrite (set_horizontal_fixed _ xs ys) by reflexivity.
      rewrite (all_lines_ext _ self' false r1); [| repeat split].
      rewrite Ev. reflexivity.
    + rewrite (all_lines_ext _ self' true r); [| repeat split].
      rewrite Eh.
      rewrite (set_horizontal_fixed _ xs ys) by reflexivity.
      rewrite (all_lines_ext _ self' false r1); [| repeat split].
      rewrite Ev. reflexivity.
  - intros _. rewrite Eh. reflexivity.
Qed.

(** ** C9: the parameters of the script *)

Lemma stride_count_scripted j :
  0 <= j < 300 ->
  stride_count 3000 (j + 250) 300 = if j <? 50 then 10%nat else 9%nat.
Proof.
  intros Hj. unfold stride_count.
  destruct (Z.ltb_spec (j + 250) 3000); [| lia].
  destruct (Z.ltb_spec j 50).
  - replace ((3000 - (j + 250) - 1) / 300) with 9; [reflexivity |].
    apply Z.div_unique with (r := 3000 - (j + 250) - 1 - 2700); lia.
  - replace ((3000 - (j + 250) - 1) / 300) with 8; [reflexivity |].
    apply Z.div_unique with (r := 3000 - (j + 250) - 1 - 2400); lia.
Qed.

Lemma row_segments_scripted j :
  0 <= j < 300 -> scripted_row (row_segments 3000 250 300 j).
Proof.
  intros Hj. exists j. split; [exact Hj |].
  rewrite row_segments_map, stride_count_scripted by exact Hj.
  apply map_ext. intros k. f_equal; lia.
Qed.

Lemma scripted_row_spaced seg : scripted_row seg -> spaced_row seg.
Proof.
  intros (j & Hj & ->).
  set (m := if j <? 50 then 10%nat else 9%nat).
  assert (Hm : (9 <= m <= 10)%nat /\ (m = 10%nat -> j < 50)).
  { subst m. destruct (Z.ltb_spec j 50); split; lia. }
  clearbody m. destruct Hm as (Hm & Hten).
  split; [rewrite length_map, length_seq; exact Hm |]. split.
  - apply Forall_map, Forall_forall. intros k Hk. apply in_seq in Hk.
    cbn [fst snd]. split; [lia |]. split; [| lia].
    destruct (Nat.eq_dec m 10) as [E | E]; [specialize (Hten E) |]; lia.
  - rewrite length_map, length_seq. intros k Hk.
    set (f := fun k0 : nat =>
                (j + 300 * Z.of_nat k0, j + 300 * Z.of_nat k0 + 250)).
    rewrite !(nth_indep _ (0, 0) (f 0%nat))
      by (rewrite length_map, length_seq; lia).
    rewrite !map_nth, !seq_nth by lia. unfold f. cbn [fst]. lia.
Qed.

Lemma selected_scripted :
  selected 3000 20 = map (fun k => 20 * Z.of_nat k) (seq 0 150).
Proof.
  unfold selected, stride_from.
  change (stride_count 3000 0 20) with 150%nat.
  apply map_ext. intros k. lia.
Qed.

Lemma row_list_scripted indices r :
  Forall (fun seg => scripted_row seg /\ spaced_row seg)
    (row_list (init_fields 250 50 80 80) 3000 indices r).
Proof.
  eapply Forall_impl;
    [| apply (row_list_jitter (init_fields 250 50 80 80) 3000 indices r);
       reflexivity].
  intros seg (j & Hj & ->).
  assert (Hs : scripted_row (row_segments 3000 250 300 j))
    by (apply row_segments_scripted; exact Hj).
  split; [exact Hs | apply scripted_row_spaced; exact Hs].
Qed.

(** Every value in range is the jitter of some state of the source. *)
Lemma jitter_any self j :
  0 <= j < line_length self + line_gap self ->
  jitter self (mkRandomState (fun _ => Z.to_nat j) 0) = j.
Proof.
  intros Hj. unfold jitter. cbn [entropy cursor].
  rewrite Nat.mod_small by lia. lia.
Qed.

(** C9. Constructing with [line_length = 250], [line_gap = 50] and both
    densities 80 returns, whatever the random source; both stored densities
    are 20; the selected rows are exactly 0, 20, ..., 2980, 150 of them;
    the horizontal (and the vertical) line set is the concatenation of 150
    rows, row [k] labelled with index [20 * k]; and every row, for its
    jitter [j] in [[0, 300)], consists of the segments
    [(j + 300 * i, j + 300 * i + 250)], ten of them if [j < 50] and nine
    otherwise: starts 300 apart, length 250, inside the grid.  Every
    jitter in [[0, 300)] occurs for some state of the source. *)
Theorem C9_scripted_construction r :
  exists s' r' rows_h rows_v,
    __init__ 250 50 80 80 r = (Ok tt, s', r') /\
    row_density s' = 20 /\ column_density s' = 20 /\
    getslice (rows_cols s') None (row_density s')
    = Ok (map (fun k => 20 * Z.of_nat k) (seq 0 150)) /\
    horizontal_lines_xs s' = Some (concat rows_h) /\
    horizontal_lines_ys s'
    = Some (label_rows (map (fun k => 20 * Z.of_nat k) (seq 0 150)) rows_h) /\
    vertical_lines_ys s' = Some (concat rows_v) /\
    vertical_lines_xs s'
    = Some (label_rows (map (fun k => 20 * Z.of_nat k) (seq 0 150)) rows_v) /\
    length rows_h = 150%nat /\ length rows_v = 150%nat /\
    Forall (fun seg => scripted_row seg /\ spaced_row seg) rows_h /\
    Forall (fun seg => scripted_row seg /\ spaced_row seg) rows_v /\
    (forall iter r0, exists seg,
        _generate_row_col_lines s' iter r0
        = (Ok (seg, ones_times seg iter), advance r0) /\
        scripted_row seg /\ spaced_row seg) /\
    (forall j, 0 <= j < 300 -> exists r0, jitter s' r0 = j).
Proof.
  unfold __init__.
  rewrite make_lines_valid;
    [| reflexivity | unfold valid_stride; simpl; lia
     | reflexivity | reflexivity].
  rewrite update_parameters_none.
  change (row_density (init_fields 250 50 80 80)) with 20.
  change (column_density (init_fields 250 50 80 80)) with 20.
  rewrite !rows_spec_rows. cbn [fst snd]. rewrite selected_scripted.
  eexists _, _, _, _.
  split; [reflexivity |]. split; [reflexivity |]. split; [reflexivity |].
  split.
  { rewrite <- selected_scripted.
    apply (getslice_arange_all 3000 20); lia. }
  split; [reflexivity |]. split; [reflexivity |].
  split; [reflexivity |]. split; [reflexivity |].
  split; [rewrite length_row_list, length_map, length_seq; reflexivity |].
  split; [rewrite length_row_list, length_map, length_seq; reflexivity |].
  split; [apply row_list_scripted |].
  split; [apply row_list_scripted |].
  split.
  - intros iter r0. eexists. split.
    + apply (row_closed_form _ iter r0 3000);
        [reflexivity | lia | unfold valid_stride; simpl; lia].
    + assert (Hs : scripted_row
                     (row_segments 3000 250 300
                        (jitter (init_fields 250 50 80 80) r0)))
        by (apply row_segments_scripted;
            apply (jitter_range (init_fields 250 50 80 80) r0); reflexivity).
      split; [exact Hs | apply scripted_row_spaced; exact Hs].
  - intros j Hj. eexists. apply jitter_any. exact Hj.
Qed.

Lemma C9_scripted_construction_witness :
  exists s' r',
    __init__ 250 50 80 80 rng0 = (Ok tt, s', r') /\
    row_density s' = 20 /\
    exists r0, jitter s' r0 = 120.
Proof.
  destruct (C9_scripted_construction rng0)
    as (s' & r' & rows_h & rows_v & Hrun & Hrd & _ & _ & _ & _ & _ & _ & _
        & _ & _ & _ & _ & Hj).
  exists s', r'. split; [exact Hrun |]. split; [exact Hrd |].
  apply (Hj 120). lia.
Defined.

(** ** C10: every coordinate lies in the grid *)

Lemma In_removelast {A} (l : list A) x : In x (removelast l) -> In x l.
Proof.
  induction l as [| y l IH]; simpl; [tauto |].
  destruct l as [| z l]; [simpl; tauto |].
  intros [-> | H]; [left; reflexivity | right; apply IH; exact H].
Qed.

(** Whatever the parameters, a row that is generated holds grid
    coordinates only. *)
Lemma row_in_grid self iter r lines1 lines2 r' :
  rows_cols self = arange 3000 -> 0 <= iter < 3000 ->
  _generate_row_col_lines self iter r = (Ok (lines1, lines2), r') ->
  in_grid lines1 /\ in_grid lines2.
Proof.
  intros Hgrid Hiter. unfold _generate_row_col_lines, bind, lift, ret.
  destruct (choice _ r) as [[j | e] r1]; [| discriminate].
  destruct (getslice (rows_cols self) (Some j) _) as [c1 | e] eqn:E1;
    [| discriminate].
  destruct (getslice (rows_cols self) (Some (j + line_length self)) _)
    as [c2 | e] eqn:E2; [| discriminate].
  unfold vstack_T.
  destruct (Nat.eqb _ _); [| discriminate].
  intros [= <- <- <-].
  assert (H1 : in_grid
    (combine (if Nat.ltb (length c2) (length c1) then removelast c1 else c1)
       c2)).
  { apply Forall_forall. intros [x y] Hin. cbn [fst snd].
    pose proof (in_combine_l _ _ _ _ Hin) as Hx.
    pose proof (in_combine_r _ _ _ _ Hin) as Hy.
    assert (Hx' : In x c1)
      by (destruct (Nat.ltb _ _); [apply In_removelast |]; exact Hx).
    apply (getslice_In _ _ _ _ _ E1) in Hx'.
    apply (getslice_In _ _ _ _ _ E2) in Hy.
    rewrite Hgrid in Hx', Hy. apply In_arange in Hx', Hy. lia. }
  split; [exact H1 |].
  unfold ones_times. apply Forall_map, Forall_forall.
  intros p _. cbn [fst snd]. lia.
Qed.

Lemma all_lines_loop_in_grid self :
  rows_cols self = arange 3000 ->
  forall indices acc r acc' r',
    Forall (fun i => 0 <= i < 3000) indices -> acc_in_grid acc ->
    all_lines_loop self indices acc r = (Ok acc', r') ->
    acc_in_grid acc'.
Proof.
  intros Hgrid. induction indices as [| i rest IH];
    intros acc r acc' r' Hidx Hacc.
  - simpl. unfold ret. intros [= <- <-]. exact Hacc.
  - inversion Hidx as [| ? ? Hi Hrest]; subst. simpl.
    destruct (i =? 0); unfold bind;
      destruct (_generate_row_col_lines self i r) as [[[a b] | e] r1] eqn:Er;
      try discriminate;
      pose proof (row_in_grid self i r a b r1 Hgrid Hi Er) as (Ha & Hb).
    + apply IH; [exact Hrest | split; assumption].
    + destruct acc as [[l1 l2] |]; [| discriminate].
      destruct Hacc as (Hl1 & Hl2).
      apply IH; [exact Hrest |].
      split; apply Forall_app; split; assumption.
Qed.

Lemma all_lines_in_grid self horizontal r lines1 lines2 r' :
  rows_cols self = arange 3000 ->
  _generate_all_lines self horizontal r = (Ok (lines1, lines2), r') ->
  in_grid lines1 /\ in_grid lines2.
Proof.
  intros Hgrid. unfold _generate_all_lines. unfold bind at 1. unfold lift.
  destruct (getslice (rows_cols self) None _) as [indices | e] eqn:Es;
    [| discriminate].
  unfold bind.
  destruct (all_lines_loop self indices None r) as [[acc | e] r1] eqn:El;
    [| discriminate].
  assert (Hidx : Forall (fun i => 0 <= i < 3000) indices).
  { apply Forall_forall. intros i Hin.
    apply (getslice_In _ _ _ _ _ Es) in Hin.
    rewrite Hgrid in Hin. apply In_arange in Hin. exact Hin. }
  pose proof (all_lines_loop_in_grid self Hgrid indices None r acc r1
                Hidx I El) as Hacc.
  destruct acc as [[l1 l2] |]; [| discriminate].
  unfold ret. intros [= <- <- <-]. exact Hacc.
Qed.

Lemma make_lines_in_grid self a b c d r s' r' :
  rows_cols self = arange 3000 ->
  make_lines self a b c d r = (Ok tt, s', r') ->
  exists hx hy vy vx,
    horizontal_lines_xs s' = Some hx /\ horizontal_lines_ys s' = Some hy /\
    vertical_lines_ys s' = Some vy /\ vertical_lines_xs s' = Some vx /\
    in_grid hx /\ in_grid hy /\ in_grid vy /\ in_grid vx.
Proof.
  intros Hgrid. unfold make_lines.
  destruct (update_parameters_fields self a b c d) as (Hg & _).
  set (self' := update_parameters self a b c d) in *.
  assert (Hgrid' : rows_cols self' = arange 3000)
    by (rewrite Hg; exact Hgrid).
  destruct (_generate_all_lines self' true r) as [[[xs ys] | e] r1] eqn:Eh;
    [| discriminate].
  destruct (_generate_all_lines (set_horizontal_lines self' xs ys) false r1)
    as [[[ys' xs'] | e] r2] eqn:Ev; [| discriminate].
  intros [= <- <-].
  destruct (all_lines_in_grid _ _ _ _ _ _ Hgrid' Eh) as (H1 & H2).
  destruct (all_lines_in_grid (set_horizontal_lines self' xs ys) _ _ _ _ _
              Hgrid' Ev) as (H3 & H4).
  exists xs, ys, ys', xs'. repeat split; assumption.
Qed.

(** C10. Whatever the parameters and the random source, when the
    constructor or [make_lines] returns, the object holds its four arrays
    and every coordinate in them, along the axis or across it, lies in
    [[0, 3000)]. *)
Theorem C10_coordinates_in_grid :
  (forall self a b c d r s' r',
      rows_cols self = arange 3000 ->
      make_lines self a b c d r = (Ok tt, s', r') ->
      exists hx hy vy vx,
        horizontal_lines_xs s' = Some hx /\ horizontal_lines_ys s' = Some hy /\
        vertical_lines_ys s' = Some vy /\ vertical_lines_xs s' = Some vx /\
        in_grid hx /\ in_grid hy /\ in_grid vy /\ in_grid vx) /\
  (forall ll lg cd rd r s' r',
      __init__ ll lg cd rd r = (Ok tt, s', r') ->
      rows_cols s' = arange 3000 /\
      exists hx hy vy vx,
        horizontal_lines_xs s' = Some hx /\ horizontal_lines_ys s' = Some hy /\
        vertical_lines_ys s' = Some vy /\ vertical_lines_xs s' = Some vx /\
        in_grid hx /\ in_grid hy /\ in_grid vy /\ in_grid vx).
Proof.
  split.
  - intros self a b c d r s' r' Hgrid Hrun.
    exact (make_lines_in_grid self a b c d r s' r' Hgrid Hrun).
  - intros ll lg cd rd r s' r' Hrun. unfold __init__ in Hrun. split.
    + pose proof (make_lines_parameters (init_fields ll lg cd rd)
                    None None None None r) as (Hg & _).
      rewrite Hrun in Hg. unfold state_after in Hg. cbn [fst snd] in Hg.
      rewrite <- Hg. reflexivity.
    + exact (make_lines_in_grid _ _ _ _ _ r s' r'
               (init_fields_grid ll lg cd rd) Hrun).
Qed.

Lemma C10_coordinates_in_grid_witness :
  outcome_of (__init__ 250 50 80 80 rng0) = Ok tt /\
  exists hx vy,
    horizontal_lines_xs (state_after (__init__ 250 50 80 80 rng0)) = Some hx /\
    vertical_lines_ys (state_after (__init__ 250 50 80 80 rng0)) = Some vy /\
    in_grid hx /\ in_grid vy.
Proof.
  assert (Hrun : __init__ 250 50 80 80 rng0
                 = (Ok tt, state_after (__init__ 250 50 80 80 rng0),
                    rng_after (__init__ 250 50 80 80 rng0)))
    by (vm_compute; reflexivity).
  destruct C10_coordinates_in_grid as (_ & Hinit).
  destruct (Hinit 250 50 80 80 rng0 _ _ Hrun)
    as (_ & hx & hy & vy & vx & H1 & _ & H3 & _ & G1 & _ & G3 & _).
  split; [rewrite Hrun; reflexivity |].
  exists hx, vy.
  split; [exact H1 |]. split; [exact H3 |]. split; [exact G1 | exact G3].
Defined.

(** * Further properties of the generator *)

(** ** The segments of one row *)

Lemma length_row_segments n ll step j :
  length (row_segments n ll step j) = stride_count n (j + ll) step.
Proof. rewrite row_segments_map, length_map, length_seq. reflexivity. Qed.

Lemma nth_row_segments n ll step j k :
  (k < stride_count n (j + ll) step)%nat ->
  nth k (row_segments n ll step j) (0, 0)
  = (j + Z.of_nat k * step, j + ll + Z.of_nat k * step).
Proof.
  intros Hk. rewrite row_segments_map.
  set (f := fun k0 : nat =>
              (j + Z.of_nat k0 * step, j + ll + Z.of_nat k0 * step)).
  rewrite (nth_indep _ (0, 0) (f 0%nat))
    by (rewrite length_map, length_seq; exact Hk).
  rewrite map_nth, seq_nth by exact Hk. reflexivity.
Qed.

(** X1. Consecutive segments of a row never touch or overlap by accident: the
    next one starts exactly [line_gap] after the previous one ends, and one
    stride after the previous one starts. *)
Theorem row_segments_separated self iter r :
  rows_cols self = arange 3000 -> valid_stride self ->
  exists lines1 lines2,
    _generate_row_col_lines self iter r = (Ok (lines1, lines2), advance r) /\
    forall k, (S k < length lines1)%nat ->
      fst (nth (S k) lines1 (0, 0)) - snd (nth k lines1 (0, 0))
      = line_gap self /\
      fst (nth (S k) lines1 (0, 0)) - fst (nth k lines1 (0, 0))
      = line_gap self + line_length self /\
      snd (nth k lines1 (0, 0)) <= fst (nth (S k) lines1 (0, 0)).
Proof.
  intros Hgrid Hvalid. pose proof Hvalid as (Hll & Hlg & Hsum).
  eexists _, _. split.
  - apply (row_closed_form self iter r 3000 Hgrid); [lia | exact Hvalid].
  - intros k Hk. rewrite length_row_segments in Hk.
    rewrite !nth_row_segments by lia. cbn [fst snd]. lia.
Qed.

Lemma row_segments_separated_witness :
  exists lines1 lines2,
    _generate_row_col_lines (init_fields 250 50 80 80) 20 rng0
    = (Ok (lines1, lines2), advance rng0) /\
    fst (nth 1 lines1 (0, 0)) - snd (nth 0 lines1 (0, 0)) = 50.
Proof.
  destruct (row_segments_separated (init_fields 250 50 80 80) 20 rng0)
    as (l1 & l2 & Hrun & Hsep).
  - reflexivity.
  - unfold valid_stride; simpl; lia.
  - exists l1, l2. split; [exact Hrun |].
    destruct (Hsep 0%nat) as (H & _); [| exact H].
    rewrite (row_closed_form (init_fields 250 50 80 80) 20 rng0 3000) in Hrun;
      [| reflexivity | lia | unfold valid_stride; simpl; lia].
    injection Hrun as <- _. vm_compute. lia.
Defined.

(** The number of positions below [n], conversely. *)
Lemma stride_count_reached n start step k :
  0 < step -> start + Z.of_nat k * step < n ->
  (k < stride_count n start step)%nat.
Proof.
  intros Hstep Hk. unfold stride_count.
  destruct (Z.ltb_spec start n) as [Hlt | Hge]; [| nia].
  assert (Z.of_nat k <= (n - start - 1) / step)
    by (apply Z.div_le_lower_bound; lia).
  lia.
Qed.

(** X2. How many segments a row holds depends on its jitter by one at most:
    with [q] the quotient of [3000 - line_length] by the stride, every row
    holds [q] or [q + 1] segments. *)
Theorem row_segment_count self iter r :
  rows_cols self = arange 3000 -> valid_stride self ->
  line_length self <= 3000 ->
  exists lines1 lines2,
    _generate_row_col_lines self iter r = (Ok (lines1, lines2), advance r) /\
    (Z.of_nat (length lines1)
     = (3000 - line_length self) / (line_gap self + line_length self) \/
     Z.of_nat (length lines1)
     = (3000 - line_length self) / (line_gap self + line_length self) + 1).
Proof.
  intros Hgrid Hvalid Hmax. pose proof Hvalid as (Hll & Hlg & Hsum).
  pose proof (jitter_range self r Hsum) as Hj.
  eexists _, _. split.
  - apply (row_closed_form self iter r 3000 Hgrid); [lia | exact Hvalid].
  - rewrite length_row_segments. unfold stride_count.
    set (j := jitter self r) in *. set (ll := line_length self) in *.
    set (step := line_gap self + ll).
    assert (Hstep : 0 < step) by (unfold step; lia).
    assert (Hjs : j < step) by (unfold step; lia).
    assert (Hq : 0 <= (3000 - ll) / step) by (apply Z.div_pos; lia).
    destruct (Z.ltb_spec (j + ll) 3000) as [Hlt | Hge].
    + assert (Hup : (3000 - (j + ll) - 1) / step <= (3000 - ll) / step)
        by (apply Z.div_le_mono; lia).
      assert (Hlo : (3000 - ll) / step - 1 <= (3000 - (j + ll) - 1) / step).
      { replace ((3000 - ll) / step - 1) with ((3000 - ll + (-1) * step) / step)
          by (rewrite Z.div_add by lia; lia).
        apply Z.div_le_mono; lia. }
      assert (H0 : 0 <= (3000 - (j + ll) - 1) / step)
        by (apply Z.div_pos; lia).
      lia.
    + left. rewrite Z.div_small by lia. reflexivity.
Qed.

Lemma row_segment_count_witness :
  exists lines1 lines2,
    _generate_row_col_lines (init_fields 250 50 80 80) 20 rng0
    = (Ok (lines1, lines2), advance rng0) /\
    (Z.of_nat (length lines1) = 9 \/ Z.of_nat (length lines1) = 10).
Proof.
  destruct (row_segment_count (init_fields 250 50 80 80) 20 rng0)
    as (l1 & l2 & Hrun & Hcount).
  - reflexivity.
  - unfold valid_stride; simpl; lia.
  - simpl; lia.
  - exists l1, l2. split; [exact Hrun | exact Hcount].
Defined.

(** ** Lines longer than the grid *)

Lemma row_segments_too_long n ll step j :
  0 <= j -> n <= ll -> row_segments n ll step j = [].
Proof.
  intros Hj Hll. rewrite row_segments_map. unfold stride_count.
  destruct (Z.ltb_spec (j + ll) n); [lia | reflexivity].
Qed.

Lemma row_list_too_long self indices r :
  0 < line_length self + line_gap self -> 3000 <= line_length self ->
  concat (row_list self 3000 indices r) = [] /\
  label_rows indices (row_list self 3000 indices r) = [].
Proof.
  intros Hsum Hll. revert r.
  induction indices as [| i rest IH]; intros r; [split; reflexivity |].
  destruct (IH (advance r)) as (H1 & H2).
  pose proof (jitter_range self r Hsum) as Hj.
  unfold label_rows in *. cbn [row_list combine map concat fst snd].
  rewrite row_segments_too_long by lia.
  split; [exact H1 | exact H2].
Qed.

(** X3. A [line_length] of 3000 or more is accepted, with a valid stride and
    positive stored densities: no segment fits in the grid, [make_lines]
    returns and leaves four empty arrays. *)
Theorem long_lines_give_empty_sets self a b c d r :
  rows_cols self = arange 3000 ->
  valid_stride (update_parameters self a b c d) ->
  0 < row_density (update_parameters self a b c d) ->
  0 < column_density (update_parameters self a b c d) ->
  3000 <= line_length (update_parameters self a b c d) ->
  exists s' r',
    make_lines self a b c d r = (Ok tt, s', r') /\
    horizontal_lines_xs s' = Some [] /\ horizontal_lines_ys s' = Some [] /\
    vertical_lines_ys s' = Some [] /\ vertical_lines_xs s' = Some [].
Proof.
  intros Hgrid Hvalid Hrd Hcd Hlong.
  destruct (update_parameters_fields self a b c d) as (Hg & _).
  rewrite make_lines_valid;
    [| rewrite Hg; exact Hgrid | exact Hvalid | exact Hrd | exact Hcd].
  rewrite !rows_spec_rows. cbn [fst snd].
  pose proof Hvalid as (_ & _ & Hsum).
  eexists _, _. split; [reflexivity |].
  cbn [horizontal_lines_xs horizontal_lines_ys vertical_lines_ys
       vertical_lines_xs set_vertical_lines set_horizontal_lines].
  repeat split; f_equal; apply row_list_too_long; assumption.
Qed.

Lemma long_lines_give_empty_sets_witness :
  exists s' r',
    make_lines (init_fields 250 50 80 80) (Some 3000) None None None rng0
    = (Ok tt, s', r') /\
    horizontal_lines_xs s' = Some [] /\ vertical_lines_ys s' = Some [].
Proof.
  destruct (long_lines_give_empty_sets (init_fields 250 50 80 80)
              (Some 3000) None None None rng0)
    as (s' & r' & Hrun & H1 & _ & H3 & _).
  - reflexivity.
  - unfold valid_stride; simpl; lia.
  - simpl; lia.
  - simpl; lia.
  - simpl; lia.
  - exists s', r'. split; [exact Hrun |]. split; [exact H1 | exact H3].
Defined.

(** ** The random numbers a regeneration draws *)

Lemma advance_n_entropy k r : entropy (advance_n k r) = entropy r.
Proof.
  revert r. induction k as [| k IH]; intros r; simpl; [reflexivity |].
  rewrite IH. reflexivity.
Qed.

Lemma advance_n_cursor k r : cursor (advance_n k r) = (cursor r + k)%nat.
Proof.
  revert r. induction k as [| k IH]; intros r; simpl; [lia |].
  rewrite IH. simpl. lia.
Qed.

(** X4. A regeneration that returns draws one random number for each selected
    row and one for each selected column, no more: the cursor of the source
    moves by the lengths of the two slices [rows_cols[::density]]. *)
Theorem make_lines_draws_one_per_row self a b c d r :
  rows_cols self = arange 3000 ->
  valid_stride (update_parameters self a b c d) ->
  0 < row_density (update_parameters self a b c d) ->
  0 < column_density (update_parameters self a b c d) ->
  exists rows cols,
    getslice (rows_cols self) None
      (row_density (update_parameters self a b c d)) = Ok rows /\
    getslice (rows_cols self) None
      (column_density (update_parameters self a b c d)) = Ok cols /\
    outcome_of (make_lines self a b c d r) = Ok tt /\
    entropy (rng_after (make_lines self a b c d r)) = entropy r /\
    cursor (rng_after (make_lines self a b c d r))
    = (cursor r + length rows + length cols)%nat.
Proof.
  intros Hgrid Hvalid Hrd Hcd.
  destruct (update_parameters_fields self a b c d) as (Hg & _).
  exists (selected 3000 (row_density (update_parameters self a b c d))),
    (selected 3000 (column_density (update_parameters self a b c d))).
  rewrite Hgrid.
  split; [apply getslice_arange_all; lia |].
  split; [apply getslice_arange_all; lia |].
  rewrite make_lines_valid;
    [| rewrite Hg; exact Hgrid | exact Hvalid | exact Hrd | exact Hcd].
  unfold outcome_of, rng_after. cbn [fst snd].
  split; [reflexivity |].
  rewrite !advance_n_entropy, !advance_n_cursor.
  split; [reflexivity | lia].
Qed.

Lemma make_lines_draws_one_per_row_witness :
  outcome_of (make_lines (init_fields 250 50 80 80) None None None None rng0)
  = Ok tt /\
  exists rows cols : list Z,
    cursor (rng_after
              (make_lines (init_fields 250 50 80 80) None None None None rng0))
    = (cursor rng0 + length rows + length cols)%nat /\
    length rows = 150%nat /\ length cols = 150%nat.
Proof.
  destruct (make_lines_draws_one_per_row (init_fields 250 50 80 80)
              None None None None rng0)
    as (rows & cols & Hr & Hc & Hok & _ & Hcur).
  - reflexivity.
  - unfold valid_stride; simpl; lia.
  - simpl; lia.
  - simpl; lia.
  - split; [exact Hok |]. exists rows, cols. split; [exact Hcur |].
    change (getslice (arange 3000) None 20 = Ok rows) in Hr.
    change (getslice (arange 3000) None 20 = Ok cols) in Hc.
    rewrite getslice_arange_all in Hr, Hc by lia.
    injection Hr as <-. injection Hc as <-.
    split; rewrite length_stride_from; reflexivity.
Defined.

(** ** The order of the rows in a line set *)

Lemma nondecreasing_from_weaken lo lo' l :
  lo' <= lo -> nondecreasing_from lo l -> nondecreasing_from lo' l.
Proof.
  intros Hlo. destruct l as [| p l]; simpl; [trivial |].
  intros (H1 & H2). split; [lia | exact H2].
Qed.

Lemma nondecreasing_ones_app seg i rest lo :
  lo <= i -> nondecreasing_from i rest ->
  nondecreasing_from lo (ones_times seg i ++ rest).
Proof.
  intros Hlo Hrest. revert lo Hlo.
  induction seg as [| p seg IH]; intros lo Hlo; simpl.
  - apply (nondecreasing_from_weaken i); assumption.
  - split; [exact Hlo |]. apply IH. lia.
Qed.

Lemma label_rows_nondecreasing step count :
  0 < step ->
  forall start rows lo,
    lo <= start ->
    nondecreasing_from lo (label_rows (stride_from start step count) rows).
Proof.
  intros Hstep. induction count as [| count IH]; intros start rows lo Hlo.
  - exact I.
  - rewrite stride_from_cons. destruct rows as [| seg rows]; [exact I |].
    unfold label_rows. cbn [combine map concat fst snd].
    apply nondecreasing_ones_app; [exact Hlo |].
    apply (IH (start + step) rows start). lia.
Qed.

(** X5. The segments of a line set come row by row in increasing order of the
    row: along the orthogonal array of either orientation the coordinate
    never decreases. *)
Theorem line_sets_ordered_by_row self a b c d r :
  rows_cols self = arange 3000 ->
  valid_stride (update_parameters self a b c d) ->
  0 < row_density (update_parameters self a b c d) ->
  0 < column_density (update_parameters self a b c d) ->
  exists s' r' hy vx,
    make_lines self a b c d r = (Ok tt, s', r') /\
    horizontal_lines_ys s' = Some hy /\ vertical_lines_xs s' = Some vx /\
    nondecreasing_from 0 hy /\ nondecreasing_from 0 vx.
Proof.
  intros Hgrid Hvalid Hrd Hcd.
  destruct (update_parameters_fields self a b c d) as (Hg & _).
  rewrite make_lines_valid;
    [| rewrite Hg; exact Hgrid | exact Hvalid | exact Hrd | exact Hcd].
  rewrite !rows_spec_rows. cbn [fst snd].
  eexists _, _, _, _. split; [reflexivity |].
  split; [reflexivity |]. split; [reflexivity |].
  unfold selected.
  split; apply label_rows_nondecreasing; lia.
Qed.

Lemma line_sets_ordered_by_row_witness :
  exists s' r' hy,
    make_lines (init_fields 250 50 80 80) None None None None rng0
    = (Ok tt, s', r') /\
    horizontal_lines_ys s' = Some hy /\ nondecreasing_from 0 hy.
Proof.
  destruct (line_sets_ordered_by_row (init_fields 250 50 80 80)
              None None None None rng0)
    as (s' & r' & hy & vx & Hrun & Hh & _ & Hs & _).
  - reflexivity.
  - unfold valid_stride; simpl; lia.
  - simpl; lia.
  - simpl; lia.
  - exists s', r', hy. split; [exact Hrun |]. split; [exact Hh | exact Hs].
Defined.

(** ** What each line set depends on *)

Lemma row_ext_row_parameters s s' iter :
  same_row_parameters s s' ->
  _generate_row_col_lines s iter = _generate_row_col_lines s' iter.
Proof.
  intros (Hg & Hll & Hlg). unfold _generate_row_col_lines.
  rewrite Hg, Hll, Hlg. reflexivity.
Qed.

Lemma all_lines_loop_ext_row_parameters s s' :
  same_row_parameters s s' ->
  forall indices acc r,
    all_lines_loop s indices acc r = all_lines_loop s' indices acc r.
Proof.
  intros Hsame. induction indices as [| i rest IH]; intros acc r.
  - reflexivity.
  - simpl. rewrite (row_ext_row_parameters s s' i Hsame).
    destruct (i =? 0); unfold bind;
      destruct (_generate_row_col_lines s' i r) as [[[x y] | e] r1];
      try reflexivity; [apply IH |].
    destruct acc as [[l1 l2] |]; [apply IH | reflexivity].
Qed.

(** Generating an orientation reads the grid, the two lengths and the
    density of that orientation, nothing else. *)
Lemma all_lines_ext_orientation s s' horizontal r :
  same_row_parameters s s' ->
  density_of s horizontal = density_of s' horizontal ->
  _generate_all_lines s horizontal r = _generate_all_lines s' horizontal r.
Proof.
  intros Hsame Hd. pose proof Hsame as (Hg & _ & _).
  unfold _generate_all_lines. fold (density_of s horizontal).
  fold (density_of s' horizontal). rewrite Hg, Hd. unfold bind, lift.
  destruct (getslice (rows_cols s') None (density_of s' horizontal))
    as [indices | e]; [| reflexivity].
  rewrite (all_lines_loop_ext_row_parameters s s' Hsame). reflexivity.
Qed.

(** The horizontal arrays [make_lines] leaves in the object. *)
Lemma make_lines_horizontal_fields self a b c d r :
  let s' := state_after (make_lines self a b c d r) in
  (horizontal_lines_xs s', horizontal_lines_ys s')
  = match _generate_all_lines (update_parameters self a b c d) true r with
    | (Ok (xs, ys), _) => (Some xs, Some ys)
    | (Raise _, _) => (horizontal_lines_xs self, horizontal_lines_ys self)
    end.
Proof.
  destruct (update_parameters_fields self a b c d)
    as (_ & _ & _ & _ & _ & _ & Fhx & Fhy & _).
  unfold make_lines, state_after.
  destruct (_generate_all_lines (update_parameters self a b c d) true r)
    as [[[xs ys] | e] r1]; cbn [fst snd].
  - destruct (_generate_all_lines _ false r1) as [[[ys' xs'] | e] r2];
      reflexivity.
  - rewrite Fhx, Fhy. reflexivity.
Qed.

(** X6. The horizontal line set does not depend on the column density: two
    calls of [make_lines] that differ in that argument only, from the same
    object and the same state of the random source, leave the same
    horizontal arrays, whether they return or raise. *)
Theorem horizontal_ignores_column_density self a b c d d' r :
  horizontal_lines_xs (state_after (make_lines self a b c d r))
  = horizontal_lines_xs (state_after (make_lines self a b c d' r)) /\
  horizontal_lines_ys (state_after (make_lines self a b c d r))
  = horizontal_lines_ys (state_after (make_lines self a b c d' r)).
Proof.
  pose proof (make_lines_horizontal_fields self a b c d r) as H1.
  pose proof (make_lines_horizontal_fields self a b c d' r) as H2.
  cbv zeta in H1, H2.
  assert (Hgen :
    _generate_all_lines (update_parameters self a b c d) true r
    = _generate_all_lines (update_parameters self a b c d') true r).
  { destruct (update_parameters_fields self a b c d)
      as (Hg & _ & Fll & Flg & Frd & _).
    destruct (update_parameters_fields self a b c d')
      as (Hg' & _ & Fll' & Flg' & Frd' & _).
    apply all_lines_ext_orientation.
    - repeat split; congruence.
    - simpl. congruence. }
  rewrite Hgen in H1. rewrite <- H2 in H1.
  injection H1 as Hx Hy. split; assumption.
Qed.

(** X7. Nothing of the previous line sets is reused: from two objects that
    agree on the grid and the four stored parameters, with the same
    arguments and the same state of the random source, [make_lines] has the
    same outcome, leaves the source in the same state and, when it returns,
    leaves the same four arrays. *)
Theorem make_lines_recomputes_from_scratch s1 s2 a b c d r :
  same_parameters s1 s2 ->
  outcome_of (make_lines s1 a b c d r) = outcome_of (make_lines s2 a b c d r) /\
  rng_after (make_lines s1 a b c d r) = rng_after (make_lines s2 a b c d r) /\
  (outcome_of (make_lines s1 a b c d r) = Ok tt ->
   horizontal_lines_xs (state_after (make_lines s1 a b c d r))
   = horizontal_lines_xs (state_after (make_lines s2 a b c d r)) /\
   horizontal_lines_ys (state_after (make_lines s1 a b c d r))
   = horizontal_lines_ys (state_after (make_lines s2 a b c d r)) /\
   vertical_lines_ys (state_after (make_lines s1 a b c d r))
   = vertical_lines_ys (state_after (make_lines s2 a b c d r)) /\
   vertical_lines_xs (state_after (make_lines s1 a b c d r))
   = vertical_lines_xs (state_after (make_lines s2 a b c d r))).
Proof.
  intros (Hg & Hll & Hlg & Hrd & Hcd).
  assert (Hsame : same_parameters (update_parameters s1 a b c d)
                    (update_parameters s2 a b c d)).
  { destruct (update_parameters_fields s1 a b c d)
      as (Gg & _ & Fll & Flg & Frd & Fcd & _).
    destruct (update_parameters_fields s2 a b c d)
      as (Gg' & _ & Fll' & Flg' & Frd' & Fcd' & _).
    unfold same_parameters.
    rewrite Gg, Gg', Fll, Fll', Flg, Flg', Frd, Frd', Fcd, Fcd'.
    rewrite Hg, Hll, Hlg, Hrd, Hcd. repeat split. }
  unfold make_lines, outcome_of, rng_after, state_after.
  rewrite (all_lines_ext _ _ true r Hsame).
  destruct (_generate_all_lines (update_parameters s2 a b c d) true r)
    as [[[xs ys] | e] r1]; cbn [fst snd].
  - rewrite (all_lines_ext (set_horizontal_lines (update_parameters s1 a b c d)
                              xs ys)
               (set_horizontal_lines (update_parameters s2 a b c d) xs ys)
               false r1)
      by (destruct Hsame as (? & ? & ? & ? & ?); repeat split; assumption).
    destruct (_generate_all_lines
                (set_horizontal_lines (update_parameters s2 a b c d) xs ys)
                false r1) as [[[ys' xs'] | e] r2]; cbn [fst snd].
    + repeat split.
    + split; [reflexivity |]. split; [reflexivity |]. discriminate.
  - split; [reflexivity |]. split; [reflexivity |]. discriminate.
Qed.

Lemma make_lines_recomputes_from_scratch_witness :
  same_parameters (init_fields 250 50 80 80) built /\
  horizontal_lines_xs (init_fields 250 50 80 80) <> horizontal_lines_xs built /\
  horizontal_lines_xs
    (state_after
       (make_lines (init_fields 250 50 80 80) None None None None rng0))
  = horizontal_lines_xs
      (state_after (make_lines built None None None None rng0)).
Proof.
  assert (Hsame : same_parameters (init_fields 250 50 80 80) built)
    by (repeat split; vm_compute; reflexivity).
  split; [exact Hsame |].
  split; [vm_compute; discriminate |].
  destruct (make_lines_recomputes_from_scratch _ _ None None None None rng0
              Hsame) as (_ & _ & Hok).
  destruct Hok as (H & _); [vm_compute; reflexivity | exact H].
Defined.

(** * The figure and the script *)

(** ** What the figure shows *)

(** X10. The figure shows the middle third of the grid.  With a [line_length] of
    at most 1000, the maximum of its slider, the window shows the pattern of
    a row as if the grid had no ends: every segment of the pattern that
    starts left of the right edge of the window is emitted in full, and the
    segments the pattern would have before the jitter end left of the left
    edge. *)
Theorem window_shows_untruncated_pattern self iter r :
  rows_cols self = arange 3000 -> number_of_rows_cols self = 1000 ->
  valid_stride self -> line_length self <= 1000 ->
  exists lines1 lines2,
    _generate_row_col_lines self iter r = (Ok (lines1, lines2), advance r) /\
    (forall k : nat,
        jitter self r + Z.of_nat k * (line_gap self + line_length self)
        < snd (x_range (plot_lines self)) ->
        In (jitter self r + Z.of_nat k * (line_gap self + line_length self),
            jitter self r + Z.of_nat k * (line_gap self + line_length self)
            + line_length self) lines1) /\
    (forall m, 1 <= m ->
        jitter self r - m * (line_gap self + line_length self)
        + line_length self < fst (x_range (plot_lines self))).
Proof.
  intros Hgrid Hn Hvalid Hmax. pose proof Hvalid as (Hll & Hlg & Hsum).
  pose proof (jitter_range self r Hsum) as Hj.
  eexists _, _. split; [| split].
  - apply (row_closed_form self iter r 3000 Hgrid); [lia | exact Hvalid].
  - intros k Hk. unfold plot_lines in Hk. cbn [x_range snd] in Hk.
    rewrite Hn in Hk. rewrite row_segments_map. apply in_map_iff.
    exists k. split; [f_equal; lia |].
    apply in_seq. split; [lia |]. cbn [Nat.add].
    apply stride_count_reached; lia.
  - intros m Hm. unfold plot_lines. cbn [x_range fst]. rewrite Hn. nia.
Qed.

Lemma window_shows_untruncated_pattern_witness :
  exists lines1 lines2,
    _generate_row_col_lines (init_fields 250 50 80 80) 1000 rng0
    = (Ok (lines1, lines2), advance rng0) /\
    In (1800, 2050) lines1.
Proof.
  destruct (window_shows_untruncated_pattern (init_fields 250 50 80 80)
              1000 rng0) as (l1 & l2 & Hrun & Hin & _).
  - reflexivity.
  - reflexivity.
  - unfold valid_stride; simpl; lia.
  - simpl; lia.
  - exists l1, l2. split; [exact Hrun |].
    apply (Hin 6%nat). vm_compute. reflexivity.
Defined.

(** ** The callback *)

Lemma truthy_Some v : truthy (Some v) = negb (v =? 0).
Proof. reflexivity. Qed.

Lemma slider_position_length v :
  slider_position line_length_slider v -> v = 0 \/ 10 <= v <= 1000.
Proof.
  intros (k & Hk & Hv & Hend). cbn in Hv, Hend. lia.
Qed.

Lemma slider_position_gap v :
  slider_position line_gap_slider v -> v = 0 \/ 10 <= v <= 1000.
Proof.
  intros (k & Hk & Hv & Hend). cbn in Hv, Hend. lia.
Qed.

Lemma slider_position_row_density v :
  slider_position row_density_slider v -> v = 0 \/ 10 <= v <= 90.
Proof.
  intros (k & Hk & Hv & Hend). cbn in Hv, Hend. lia.
Qed.

Lemma slider_position_column_density v :
  slider_position column_density_slider v -> v = 0 \/ 10 <= v <= 90.
Proof.
  intros (k & Hk & Hv & Hend). cbn in Hv, Hend. lia.
Qed.

(** What the sliders leave in the object. *)
Lemma update_parameters_sliders f w :
  ui_parameters f -> widgets_positions w ->
  let f' := update_parameters f (Some (line_length_value w))
              (Some (line_gap_value w)) (Some (row_density_value w))
              (Some (column_density_value w)) in
  ui_parameters f' /\
  line_length f'
  = (if line_length_value w =? 0 then line_length f
     else line_length_value w) /\
  line_gap f'
  = (if line_gap_value w =? 0 then line_gap f else line_gap_value w) /\
  row_density f'
  = (if row_density_value w =? 0 then row_density f
     else 100 - row_density_value w) /\
  column_density f'
  = (if column_density_value w =? 0 then column_density f
     else 100 - column_density_value w).
Proof.
  intros (Hgrid & Hll & Hlg & Hrd & Hcd) (Pll & Plg & Prd & Pcd) f'.
  apply slider_position_length in Pll. apply slider_position_gap in Plg.
  apply slider_position_row_density in Prd.
  apply slider_position_column_density in Pcd.
  destruct (update_parameters_fields f (Some (line_length_value w))
              (Some (line_gap_value w)) (Some (row_density_value w))
              (Some (column_density_value w)))
    as (Hg & _ & Fll & Flg & Frd & Fcd & _).
  fold f' in Hg, Fll, Flg, Frd, Fcd.
  rewrite truthy_Some in Fll, Flg, Frd, Fcd. cbn [arg_value] in *.
  assert (Ell : line_length f'
                = if line_length_value w =? 0 then line_length f
                  else line_length_value w)
    by (rewrite Fll; destruct (line_length_value w =? 0); reflexivity).
  assert (Elg : line_gap f'
                = if line_gap_value w =? 0 then line_gap f
                  else line_gap_value w)
    by (rewrite Flg; destruct (line_gap_value w =? 0); reflexivity).
  assert (Erd : row_density f'
                = if row_density_value w =? 0 then row_density f
                  else 100 - row_density_value w)
    by (rewrite Frd; destruct (row_density_value w =? 0); reflexivity).
  assert (Ecd : column_density f'
                = if column_density_value w =? 0 then column_density f
                  else 100 - column_density_value w)
    by (rewrite Fcd; destruct (column_density_value w =? 0); reflexivity).
  split; [| repeat split; assumption].
  unfold ui_parameters. rewrite Hg, Ell, Elg, Erd, Ecd.
  split; [exact Hgrid |].
  destruct (Z.eqb_spec (line_length_value w) 0),
    (Z.eqb_spec (line_gap_value w) 0),
    (Z.eqb_spec (row_density_value w) 0),
    (Z.eqb_spec (column_density_value w) 0); lia.
Qed.

(** One callback from an object in the range of the sliders. *)
Lemma update_data_step w app r :
  ui_parameters (factory app) -> widgets_positions w ->
  exists app' r',
    update_data w app r = (Done tt, app', r') /\
    ui_parameters (factory app') /\ sources_in_sync app' /\
    same_parameters
      (update_parameters (factory app) (Some (line_length_value w))
         (Some (line_gap_value w)) (Some (row_density_value w))
         (Some (column_density_value w)))
      (factory app').
Proof.
  intros Hui Hw.
  destruct (update_parameters_sliders _ w Hui Hw)
    as (Hui' & _). pose proof Hui' as (Hg & Hll & Hlg & Hrd & Hcd).
  unfold update_data.
  rewrite make_lines_valid;
    [| exact Hg | unfold valid_stride; lia | lia | lia].
  rewrite !rows_spec_rows. cbn [fst snd].
  cbn [horizontal_data vertical_data horizontal_lines_xs horizontal_lines_ys
       vertical_lines_xs vertical_lines_ys set_vertical_lines
       set_horizontal_lines].
  eexists _, _. split; [reflexivity |]. cbn [factory].
  split; [exact Hui' |]. split; [split; reflexivity |].
  repeat split.
Qed.

(** X11. The callback never fails in the hands of a user.  From an object whose
    parameters are in the range the sliders can produce, and with the
    sliders at any of their positions, [update_data] completes; both
    sources then show the new line sets; each stored parameter is the value
    of its slider (a density as [100 - value], the row slider driving the
    rows and the column slider the columns) unless the slider is at 0, which
    leaves the parameter as it was; and the parameters are again in range. *)
Theorem update_data_never_fails w app r :
  ui_parameters (factory app) -> widgets_positions w ->
  exists app' r',
    update_data w app r = (Done tt, app', r') /\
    ui_parameters (factory app') /\ sources_in_sync app' /\
    line_length (factory app')
    = (if line_length_value w =? 0 then line_length (factory app)
       else line_length_value w) /\
    line_gap (factory app')
    = (if line_gap_value w =? 0 then line_gap (factory app)
       else line_gap_value w) /\
    row_density (factory app')
    = (if row_density_value w =? 0 then row_density (factory app)
       else 100 - row_density_value w) /\
    column_density (factory app')
    = (if column_density_value w =? 0 then column_density (factory app)
       else 100 - column_density_value w).
Proof.
  intros Hui Hw.
  destruct (update_data_step w app r Hui Hw)
    as (app' & r' & Hrun & Hui' & Hsync & (_ & Sll & Slg & Srd & Scd)).
  destruct (update_parameters_sliders _ w Hui Hw)
    as (_ & Ell & Elg & Erd & Ecd).
  exists app', r'. split; [exact Hrun |]. split; [exact Hui' |].
  split; [exact Hsync |].
  rewrite <- Sll, <- Slg, <- Srd, <- Scd.
  repeat split; assumption.
Qed.

Lemma update_data_never_fails_witness :
  exists app' r',
    update_data (mkWidgets 0 100 0 50)
      (mkScript (init_fields 250 50 80 80) [] []) rng0
    = (Done tt, app', r') /\
    line_length (factory app') = 250 /\ line_gap (factory app') = 100 /\
    row_density (factory app') = 20 /\ column_density (factory app') = 50.
Proof.
  assert (Hui : ui_parameters
                  (factory (mkScript (init_fields 250 50 80 80) [] []))).
  { unfold ui_parameters. split; [reflexivity |]. simpl. lia. }
  assert (Hw : widgets_positions (mkWidgets 0 100 0 50)).
  { unfold widgets_positions, slider_position. simpl.
    split; [exists 0; lia |]. split; [exists 10; lia |].
    split; [exists 0; lia | exists 5; lia]. }
  destruct (update_data_never_fails _ _ rng0 Hui Hw)
    as (app' & r' & Hrun & _ & _ & Hll & Hlg & Hrd & Hcd).
  exists app', r'. split; [exact Hrun |].
  split; [exact Hll |]. split; [exact Hlg |]. split; [exact Hrd | exact Hcd].
Defined.

(** ** A whole session *)

Lemma script_start_ok r :
  exists app r',
    script_start r = (Done app, r') /\
    ui_parameters (factory app) /\ sources_in_sync app.
Proof.
  unfold script_start, __init__.
  rewrite make_lines_valid;
    [| reflexivity | unfold valid_stride; simpl; lia
     | reflexivity | reflexivity].
  rewrite update_parameters_none, !rows_spec_rows. cbn [fst snd].
  cbn [horizontal_data vertical_data horizontal_lines_xs horizontal_lines_ys
       vertical_lines_xs vertical_lines_ys set_vertical_lines
       set_horizontal_lines].
  eexists _, _. split; [reflexivity |]. cbn [factory].
  split; [| split; reflexivity].
  unfold ui_parameters. split; [reflexivity |]. simpl. lia.
Qed.

Lemma run_events_ok events :
  Forall widgets_positions events ->
  forall app r,
    ui_parameters (factory app) -> sources_in_sync app ->
    exists app' r',
      run_events events app r = (Done tt, app', r') /\
      ui_parameters (factory app') /\ sources_in_sync app'.
Proof.
  induction 1 as [| w rest Hw _ IH]; intros app r Hui Hsync.
  - exists app, r. split; [reflexivity |]. split; assumption.
  - destruct (update_data_step w app r Hui Hw)
      as (app1 & r1 & Hrun & Hui1 & Hsync1 & _).
    cbn [run_events]. rewrite Hrun. apply IH; assumption.
Qed.

(** X12. The script sets up for every state of the random source, and no
    sequence of slider events makes a callback fail: after any session in
    which the sliders take positions of their own, every callback has
    completed, the stored lengths are between 10 and 1000 and the stored
    densities between 10 and 90 (so neither a zero length nor the stride
    100 of a density 0 can be reached from the sliders), and both sources
    show the line sets of the object. *)
Theorem session_never_fails events r :
  Forall widgets_positions events ->
  exists app r1 app' r',
    script_start r = (Done app, r1) /\
    run_events events app r1 = (Done tt, app', r') /\
    ui_parameters (factory app') /\ sources_in_sync app'.
Proof.
  intros Hev.
  destruct (script_start_ok r) as (app & r1 & Hstart & Hui & Hsync).
  destruct (run_events_ok events Hev app r1 Hui Hsync)
    as (app' & r' & Hrun & Hui' & Hsync').
  exists app, r1, app', r'.
  split; [exact Hstart |]. split; [exact Hrun |].
  split; [exact Hui' | exact Hsync'].
Qed.

Lemma session_never_fails_witness :
  exists app r1 app' r',
    script_start rng0 = (Done app, r1) /\
    run_events [mkWidgets 0 0 0 0; mkWidgets 1000 1000 90 90] app r1
    = (Done tt, app', r') /\
    ui_parameters (factory app').
Proof.
  assert (Hev : Forall widgets_positions
                  [mkWidgets 0 0 0 0; mkWidgets 1000 1000 90 90]).
  { repeat constructor; unfold slider_position; simpl;
      try (exists 0; lia); try (exists 100; lia); exists 9; lia. }
  destruct (session_never_fails _ rng0 Hev)
    as (app & r1 & app' & r' & Hstart & Hrun & Hui & _).
  exists app, r1, app', r'.
  split; [exact Hstart |]. split; [exact Hrun | exact Hui].
Defined.

(** ** A callback that fails *)

(** X13. When the sliders' values leave a degenerate stride in the object (which
    the positions of the sliders cannot do, but a value set from elsewhere
    can), the callback fails with the exception of the class.  The object
    then holds the new parameters; the sources are not replaced, and if
    they showed the line sets of the object before the callback they still
    do, since the failed regeneration replaced neither line set. *)
Theorem failed_callback_keeps_display w app r :
  rows_cols (factory app) = arange 3000 ->
  sources_in_sync app ->
  line_length
    (update_parameters (factory app) (Some (line_length_value w))
       (Some (line_gap_value w)) (Some (row_density_value w))
       (Some (column_density_value w)))
  + line_gap
      (update_parameters (factory app) (Some (line_length_value w))
         (Some (line_gap_value w)) (Some (row_density_value w))
         (Some (column_density_value w))) <= 0 ->
  exists e app',
    update_data w app r = (Failed e, app', r) /\
    factory app'
    = update_parameters (factory app) (Some (line_length_value w))
        (Some (line_gap_value w)) (Some (row_density_value w))
        (Some (column_density_value w)) /\
    horizontal_source app' = horizontal_source app /\
    vertical_source app' = vertical_source app /\
    sources_in_sync app'.
Proof.
  intros Hgrid (Hh & Hv) Hdeg.
  set (f' := update_parameters (factory app) (Some (line_length_value w))
               (Some (line_gap_value w)) (Some (row_density_value w))
               (Some (column_density_value w))) in *.
  destruct (update_parameters_fields (factory app)
              (Some (line_length_value w)) (Some (line_gap_value w))
              (Some (row_density_value w)) (Some (column_density_value w)))
    as (Hg & _ & _ & _ & _ & _ & Fhx & Fhy & Fvy & Fvx).
  fold f' in Hg, Fhx, Fhy, Fvy, Fvx.
  unfold update_data.
  rewrite (make_lines_horizontal_raises (factory app) _ _ _ _ r
             (if density_of f' true =? 0
              then slice_step_zero else choice_empty) r)
    by (apply (all_lines_degenerate f' true r 3000);
        [rewrite Hg; exact Hgrid | lia | exact Hdeg]).
  fold f'. eexists _, _. split; [reflexivity |]. cbn [factory
    horizontal_source vertical_source].
  split; [reflexivity |]. split; [reflexivity |]. split; [reflexivity |].
  unfold sources_in_sync, horizontal_data, vertical_data.
  cbn [factory horizontal_source vertical_source].
  rewrite Fhx, Fhy, Fvy, Fvx. split; [exact Hh | exact Hv].
Qed.

Lemma failed_callback_keeps_display_witness :
  exists e app',
    update_data (mkWidgets (-50) 50 0 0)
      (mkScript
         (mkLineFactory 1000 (arange 3000) 3000 50 20 20
            (Some []) (Some []) (Some []) (Some []))
         [("horizontal_lines_xs"%string, []);
          ("horizontal_lines_ys"%string, [])]
         [("vertical_lines_xs"%string, []);
          ("vertical_lines_ys"%string, [])]) rng0
    = (Failed e, app', rng0) /\
    line_length (factory app') = -50 /\ sources_in_sync app'.
Proof.
  destruct (failed_callback_keeps_display (mkWidgets (-50) 50 0 0)
              (mkScript
                 (mkLineFactory 1000 (arange 3000) 3000 50 20 20
                    (Some []) (Some []) (Some []) (Some []))
                 [("horizontal_lines_xs"%string, []);
                  ("horizontal_lines_ys"%string, [])]
                 [("vertical_lines_xs"%string, []);
                  ("vertical_lines_ys"%string, [])]) rng0)
    as (e & app' & Hrun & Hf & _ & _ & Hsync).
  - reflexivity.
  - split; reflexivity.
  - vm_compute. discriminate.
  - exists e, app'. split; [exact Hrun |]. split; [| exact Hsync].
    rewrite Hf. reflexivity.
Defined.

(** * More on regeneration *)

(** ** A regeneration that fails half-way *)

(** X8. The two line sets are not replaced together.  When the stored column
    density is 0 or negative while the stride and the row density are
    valid, [make_lines] generates and stores the new horizontal line set,
    then raises on the columns (the slice error for a zero step, the
    unbound local for a negative one): the object is left with the new
    horizontal arrays and the vertical arrays it had before the call. *)
Theorem vertical_failure_keeps_new_horizontal self a b c d r :
  rows_cols self = arange 3000 ->
  valid_stride (update_parameters self a b c d) ->
  0 < row_density (update_parameters self a b c d) ->
  column_density (update_parameters self a b c d) <= 0 ->
  exists e xs ys r1 r',
    _generate_all_lines (update_parameters self a b c d) true r
    = (Ok (xs, ys), r1) /\
    make_lines self a b c d r
    = (Raise e,
       set_horizontal_lines (update_parameters self a b c d) xs ys, r') /\
    e = (if column_density (update_parameters self a b c d) =? 0
         then slice_step_zero else lines1_unbound) /\
    horizontal_lines_xs (state_after (make_lines self a b c d r)) = Some xs /\
    horizontal_lines_ys (state_after (make_lines self a b c d r)) = Some ys /\
    vertical_lines_ys (state_after (make_lines self a b c d r))
    = vertical_lines_ys self /\
    vertical_lines_xs (state_after (make_lines self a b c d r))
    = vertical_lines_xs self.
Proof.
  intros Hgrid Hvalid Hrd Hcd.
  destruct (update_parameters_fields self a b c d)
    as (Hg & _ & _ & _ & _ & _ & _ & _ & Fvy & Fvx).
  set (self' := update_parameters self a b c d) in *.
  assert (Hgrid' : rows_cols self' = arange 3000)
    by (rewrite Hg; exact Hgrid).
  pose proof (all_lines_closed_form self' 3000 true r Hgrid'
                ltac:(lia) Hvalid Hrd) as Hh.
  destruct (rows_spec self' 3000 (selected 3000 (density_of self' true)) r)
    as [xs ys].
  set (r1 := advance_n (length (selected 3000 (density_of self' true))) r)
    in *.
  assert (Hv : exists r',
    _generate_all_lines self' false r1
    = (Raise (if column_density self' =? 0
              then slice_step_zero else lines1_unbound), r')).
  { destruct (Z.eqb_spec (column_density self') 0) as [E | E].
    - exists r1. apply all_lines_zero_density. exact E.
    - exists (advance r1). apply all_lines_negative_density;
        [exact Hgrid' | exact Hvalid | simpl; lia]. }
  destruct Hv as (r' & Hv).
  pose proof (make_lines_vertical_raises self a b c d r xs ys r1 _ r' Hh Hv)
    as Hrun.
  fold self' in Hrun.
  exists (if column_density self' =? 0 then slice_step_zero
          else lines1_unbound), xs, ys, r1, r'.
  split; [exact Hh |]. split; [exact Hrun |]. split; [reflexivity |].
  rewrite Hrun. unfold state_after. cbn [fst snd].
  cbn [set_horizontal_lines horizontal_lines_xs horizontal_lines_ys
       vertical_lines_ys vertical_lines_xs].
  split; [reflexivity |]. split; [reflexivity |].
  split; [exact Fvy | exact Fvx].
Qed.

Lemma vertical_failure_keeps_new_horizontal_witness :
  exists e xs ys r',
    make_lines (init_fields 250 50 80 80) None None None (Some 100) rng0
    = (Raise e,
       set_horizontal_lines
         (update_parameters (init_fields 250 50 80 80)
            None None None (Some 100)) xs ys, r') /\
    e = slice_step_zero /\
    vertical_lines_ys
      (state_after
         (make_lines (init_fields 250 50 80 80) None None None (Some 100)
            rng0)) = None.
Proof.
  destruct (vertical_failure_keeps_new_horizontal (init_fields 250 50 80 80)
              None None None (Some 100) rng0)
    as (e & xs & ys & r1 & r' & _ & Hrun & He & _ & _ & Hvy & _).
  - reflexivity.
  - unfold valid_stride; simpl; lia.
  - simpl; lia.
  - simpl; lia.
  - exists e, xs, ys, r'. split; [exact Hrun |].
    split; [exact He | exact Hvy].
Defined.

(** ** The size of a line set *)

Lemma stride_count_bounds j ll step :
  0 <= j < step -> 0 <= ll <= 3000 ->
  (3000 - ll) / step <= Z.of_nat (stride_count 3000 (j + ll) step)
  <= (3000 - ll) / step + 1.
Proof.
  intros Hj Hll. unfold stride_count.
  assert (Hstep : 0 < step) by lia.
  assert (Hq : 0 <= (3000 - ll) / step) by (apply Z.div_pos; lia).
  destruct (Z.ltb_spec (j + ll) 3000) as [Hlt | Hge].
  - assert (Hup : (3000 - (j + ll) - 1) / step <= (3000 - ll) / step)
      by (apply Z.div_le_mono; lia).
    assert (Hlo : (3000 - ll) / step - 1 <= (3000 - (j + ll) - 1) / step).
    { replace ((3000 - ll) / step - 1) with ((3000 - ll + (-1) * step) / step)
        by (rewrite Z.div_add by lia; lia).
      apply Z.div_le_mono; lia. }
    assert (H0 : 0 <= (3000 - (j + ll) - 1) / step)
      by (apply Z.div_pos; lia).
    lia.
  - rewrite Z.div_small by lia. simpl. lia.
Qed.

Lemma length_concat_row_list self indices r :
  valid_stride self -> line_length self <= 3000 ->
  Z.of_nat (length indices)
  * ((3000 - line_length self) / (line_gap self + line_length self))
  <= Z.of_nat (length (concat (row_list self 3000 indices r)))
  <= Z.of_nat (length indices)
     * ((3000 - line_length self) / (line_gap self + line_length self) + 1).
Proof.
  intros (Hll & Hlg & Hsum) Hmax. revert r.
  induction indices as [| i rest IH]; intros r.
  - simpl. lia.
  - cbn [row_list concat length]. rewrite length_app, length_row_segments.
    pose proof (jitter_range self r Hsum) as Hj.
    pose proof (stride_count_bounds (jitter self r) (line_length self)
                  (line_gap self + line_length self)) as Hb.
    specialize (IH (advance r)).
    set (q := (3000 - line_length self)
              / (line_gap self + line_length self)) in *.
    rewrite Nat2Z.inj_add, Nat2Z.inj_succ. nia.
Qed.

Lemma length_selected_Z d :
  0 < d -> Z.of_nat (length (selected 3000 d)) = 2999 / d + 1.
Proof.
  intros Hd. rewrite length_selected, stride_count_all_succ by lia.
  assert (0 <= 2999 / d) by (apply Z.div_pos; lia).
  change (3000 - 1) with 2999. lia.
Qed.

(** X9. The number of segments of a line set is fixed by the parameters up to
    one per row: with [rows = 2999 / row_density + 1] selected rows and [q]
    the quotient of [3000 - line_length] by the stride, the horizontal set
    holds between [rows * q] and [rows * (q + 1)] segments, and likewise the
    vertical set with the column density. *)
Theorem line_set_size self a b c d r :
  rows_cols self = arange 3000 ->
  valid_stride (update_parameters self a b c d) ->
  0 < row_density (update_parameters self a b c d) ->
  0 < column_density (update_parameters self a b c d) ->
  line_length (update_parameters self a b c d) <= 3000 ->
  let self' := update_parameters self a b c d in
  let q := (3000 - line_length self') / (line_gap self' + line_length self') in
  exists s' r' hx vy,
    make_lines self a b c d r = (Ok tt, s', r') /\
    horizontal_lines_xs s' = Some hx /\ vertical_lines_ys s' = Some vy /\
    (2999 / row_density self' + 1) * q <= Z.of_nat (length hx)
    <= (2999 / row_density self' + 1) * (q + 1) /\
    (2999 / column_density self' + 1) * q <= Z.of_nat (length vy)
    <= (2999 / column_density self' + 1) * (q + 1).
Proof.
  intros Hgrid Hvalid Hrd Hcd Hmax self' q.
  destruct (update_parameters_fields self a b c d) as (Hg & _).
  rewrite make_lines_valid;
    [| rewrite Hg; exact Hgrid | exact Hvalid | exact Hrd | exact Hcd].
  fold self'. rewrite !rows_spec_rows. cbn [fst snd].
  eexists _, _, _, _. split; [reflexivity |].
  split; [reflexivity |]. split; [reflexivity |].
  rewrite <- !length_selected_Z by assumption.
  split; apply length_concat_row_list; assumption.
Qed.

Lemma line_set_size_witness :
  exists s' r' hx,
    make_lines (init_fields 250 50 80 80) None None None None rng0
    = (Ok tt, s', r') /\
    horizontal_lines_xs s' = Some hx /\
    1350 <= Z.of_nat (length hx) <= 1500.
Proof.
  destruct (line_set_size (init_fields 250 50 80 80)
              None None None None rng0)
    as (s' & r' & hx & vy & Hrun & Hh & _ & Hsize & _).
  - reflexivity.
  - unfold valid_stride; simpl; lia.
  - simpl; lia.
  - simpl; lia.
  - simpl; lia.
  - exists s', r', hx. split; [exact Hrun |]. split; [exact Hh |].
    exact Hsize.
Defined.
